(** * hst_notebooks: a shallow embedding of the notebook code cells

    The repository is a collection of Jupyter notebooks.  The code cells
    that carry logic of their own (flux rescaling, SNR ratio, directory
    cleanup, shift-file check, guarded tar extraction) are embedded as
    functions; the remaining cells are embedded as the sequence of
    externally visible operations they perform. *)

From Stdlib Require Import List String Ascii DecimalString.
From Stdlib Require Import ZArith QArith Qfield Lia Bool Arith.
From stdpp Require Import gmap strings.
Import ListNotations.
Open Scope string_scope.
Open Scope list_scope.

(** ** Python runtime: exceptions and outcomes *)

Module Py.

(** The exception classes the embedded cells can meet.  [is_Exception]
    is the subclass test performed by [except Exception]. *)
Inductive exn : Type :=
| FileNotFoundError (msg : string)
| NotADirectoryError (msg : string)
| PermissionError (msg : string)
| OSError (msg : string)
| ShutilError (msg : string)
| KeyError (msg : string)
| IndexError (msg : string)
| ValueError (msg : string)
| KeyboardInterrupt
| SystemExit.

Definition is_Exception (e : exn) : bool :=
  match e with
  | KeyboardInterrupt | SystemExit => false
  | _ => true
  end.

(** [str(e)] as interpolated by an f-string. *)
Definition str_exn (e : exn) : string :=
  match e with
  | FileNotFoundError m | NotADirectoryError m | PermissionError m
  | OSError m | ShutilError m | KeyError m | IndexError m
  | ValueError m => m
  | KeyboardInterrupt | SystemExit => ""
  end.

(** Outcome of running a piece of code: a value, an exception in flight,
    or [NonFinite] when numpy carries on with nan/inf values, which the
    rational model of arrays does not represent. *)
Inductive outcome (A : Type) : Type :=
| Ok (a : A)
| Raise (e : exn)
| NonFinite.
Arguments Ok {A} a.
Arguments Raise {A} e.
Arguments NonFinite {A}.

Definition bind {A B} (m : outcome A) (k : A -> outcome B) : outcome B :=
  match m with
  | Ok a => k a
  | Raise e => Raise e
  | NonFinite => NonFinite
  end.

Definition finite {A} (o : option A) : outcome A :=
  match o with Some a => Ok a | None => NonFinite end.

End Py.

Notation "x <- m ;; k" := (Py.bind m (fun x => k))
  (at level 100, m at next level, right associativity).

(** ** numpy on one-dimensional arrays of exact rationals *)

Module Np.

Definition ndarray := list Q.




(** Scalar division; [None] is the inf/nan numpy produces on a zero
    divisor. *)
Definition divide (x y : Q) : option Q :=
  if Qeq_bool y 0 then None else Some (x / y)%Q.

(** [a * s] for an array [a] and a scalar [s]. *)
Definition multiply (a : ndarray) (s : Q) : ndarray :=
  map (fun x => (x * s)%Q) a.

Definition is_nonzero (x : Q) : bool := negb (Qeq_bool x 0).

(** [np.nonzero(a)]: the indices of the entries different from zero. *)
Fixpoint nonzero_from (i : nat) (a : ndarray) : list nat :=
  match a with
  | [] => []
  | x :: a' =>
      if Qeq_bool x 0 then nonzero_from (S i) a'
      else i :: nonzero_from (S i) a'
  end.

Definition nonzero (a : ndarray) : list nat := nonzero_from 0 a.

(** [a[idx]] with an index array: IndexError when an index is out of
    bounds. *)
Fixpoint take (a : ndarray) (idx : list nat) : Py.outcome ndarray :=
  match idx with
  | [] => Py.Ok []
  | i :: idx' =>
      match nth_error a i with
      | None => Py.Raise (Py.IndexError "index out of bounds")
      | Some x => r <- take a idx' ;; Py.Ok (x :: r)
      end
  end.

(** [a / b] elementwise on arrays of equal length ([None] on a shape
    mismatch or a zero divisor, which the cell below never produces). *)
Fixpoint divide_arrays (a b : ndarray) : option ndarray :=
  match a, b with
  | [], [] => Some []
  | x :: a', y :: b' =>
      match divide x y, divide_arrays a' b' with
      | Some q, Some r => Some (q :: r)
      | _, _ => None
      end
  | _, _ => None
  end.

End Np.

(** ** astropy.io.fits: a file system of binary tables *)

Module Fits.

(** The table of HDU 1: column name to column data. *)
Abbreviation bintable := (gmap string Np.ndarray).

(** The files on disk that hold FITS tables, by path as the cell
    spells it: two spellings of one path are two keys, so the cells are
    read on file names without a directory part. *)
Abbreviation filesystem := (gmap string (gmap string Np.ndarray)).

Definition open (fs : filesystem) (path : string) : Py.outcome bintable :=
  match fs !! path with
  | Some t => Py.Ok t
  | None => Py.Raise (Py.FileNotFoundError path)
  end.

Definition column (t : bintable) (name : string) : Py.outcome Np.ndarray :=
  match t !! name with
  | Some c => Py.Ok c
  | None => Py.Raise (Py.KeyError name)
  end.

Definition writeto (fs : filesystem) (path : string) (t : bintable)
  : filesystem := <[path := t]> fs.

End Fits.

(** ** The HASP flux-scaling notebook *)

Module FluxScaling.

(** [str(Path("./stis_data/"))] and its siblings. *)
Definition stis_data_dir := "stis_data".
Definition stis_products_dir := "stis_products".
Definition stis_scaled_data_dir := "stis_scaled_data".
Definition stis_scaled_products_dir := "stis_scaled_products".

Definition coadd := "hst_8435_stis_g191b2b_e140m_o5jy_cspec.fits".

Definition files : list string :=
  ["o5jy03010_x1d.fits"; "o5jy03020_x1d.fits"; "o5jy03030_x1d.fits"].

(** The f-string [f"{dir}/{filename}"]. *)
Definition fpath (dir filename : string) : string :=
  dir +:+ "/" +:+ filename.



(** Cell 1d21666f: [for i, filename in enumerate(files)], started at
    index [i]; what the loop reads and writes.  The plot of each
    spectrum, which looks up [colors[i]] in a list of three colours, is
    added in [RescalePlot.rescale_loop]. *)
Fixpoint rescale_loop (i : nat) (fnames : list string)
    (scale_factor : list Q) (fs : Fits.filesystem)
  : Py.outcome Fits.filesystem :=
  match fnames with
  | [] => Py.Ok fs
  | filename :: rest =>
      g191_data <- Fits.open fs (fpath stis_data_dir filename) ;;
      flux <- Fits.column g191_data "FLUX" ;;
      wavelength <- Fits.column g191_data "WAVELENGTH" ;;
      match nth_error scale_factor i with
      | None => Py.Raise (Py.IndexError "list index out of range")
      | Some s =>
          let g191_data' := <["FLUX" := Np.multiply flux s]> g191_data in
          rescale_loop (S i) rest scale_factor
            (Fits.writeto fs (fpath stis_scaled_data_dir filename)
               g191_data')
      end
  end.


(** Cell 3b31e8d5, up to the plot: [SNR] is the column read from the
    first co-add, [SNR_scaled] and [w_scaled] the columns read from the
    second.  The cell rebinds [SNR_scaled] to the ratio. *)
Definition snr_ratio_cell (SNR SNR_scaled w_scaled : Np.ndarray)
  : Py.outcome (Np.ndarray * Np.ndarray * Np.ndarray * Np.ndarray) :=
  SNR_scaled_nonzero <- Np.take SNR_scaled (Np.nonzero SNR) ;;
  SNR_nonzero <- Np.take SNR (Np.nonzero SNR) ;;
  ratio <- Py.finite (Np.divide_arrays SNR_scaled_nonzero SNR_nonzero) ;;
  w_scaled_nonzero <- Np.take w_scaled (Np.nonzero SNR) ;;
  Py.Ok (SNR_scaled_nonzero, SNR_nonzero, ratio, w_scaled_nonzero).

End FluxScaling.

(** A small file system for running the cells: three spectra of
    decreasing brightness. *)
Module Example.

Definition x1d (wavelength flux : Np.ndarray) : gmap string Np.ndarray :=
  <["WAVELENGTH" := wavelength]> (<["FLUX" := flux]> ∅).

Definition wave : Np.ndarray := [1450; 1460; 1470]%Q.
Definition flux_010 : Np.ndarray := [4; 2; 6]%Q.
Definition flux_020 : Np.ndarray := [1; 3; 2]%Q.
Definition flux_030 : Np.ndarray := [1; 1 # 2; 3 # 2]%Q.

Definition stis_data : Fits.filesystem :=
  <["stis_data/o5jy03010_x1d.fits" := x1d wave flux_010]>
  (<["stis_data/o5jy03020_x1d.fits" := x1d wave flux_020]>
   (<["stis_data/o5jy03030_x1d.fits" := x1d wave flux_030]> ∅)).

End Example.

(** ** str methods used by the cells *)

Module Str.

(** [s.startswith(p)]. *)
Definition startswith (s p : string) : bool := String.prefix p s.

(** [s.endswith("/")]. *)
Fixpoint endswith_sep (s : string) : bool :=
  match s with
  | EmptyString => false
  | String c EmptyString => Ascii.eqb c "/"
  | String _ s' => endswith_sep s'
  end.

(** [sub in s]. *)
Fixpoint contains (sub s : string) : bool :=
  if String.prefix sub s then true
  else match s with
       | EmptyString => false
       | String _ s' => contains sub s'
       end.

(** [s.split(sep)] for a one-character separator. *)
Fixpoint split (sep : ascii) (s : string) : list string :=
  match s with
  | EmptyString => [EmptyString]
  | String c s' =>
      if Ascii.eqb c sep then EmptyString :: split sep s'
      else match split sep s' with
           | h :: t => String c h :: t
           | [] => [String c EmptyString]
           end
  end.

(** [sep.join(l)]. *)
Fixpoint join (sep : string) (l : list string) : string :=
  match l with
  | [] => EmptyString
  | [x] => x
  | x :: l' => x +:+ sep +:+ join sep l'
  end.

(** [str(n)] for a non-negative int. *)
Definition of_nat (n : nat) : string :=
  NilEmpty.string_of_uint (Nat.to_uint n).

End Str.

(** ** posixpath, as CPython implements it *)

Module PosixPath.

Definition isabs (s : string) : bool := Str.startswith s "/".

(** [os.path.join(a, b)]. *)
Definition join (a b : string) : string :=
  if Str.startswith b "/" then b
  else if String.eqb a "" || Str.endswith_sep a then a +:+ b
  else a +:+ "/" +:+ b.

(** One round of the component loop of [normpath]. *)
Definition norm_step (initial_slashes : nat) (new_comps : list string)
    (comp : string) : list string :=
  if String.eqb comp "" || String.eqb comp "." then new_comps
  else if negb (String.eqb comp "..")
          || (Nat.eqb initial_slashes 0 && Nat.eqb (length new_comps) 0)
          || (negb (Nat.eqb (length new_comps) 0)
              && String.eqb (List.last new_comps "") "..")
  then new_comps ++ [comp]
  else List.removelast new_comps.

(** [os.path.normpath(path)]. *)
Definition normpath (path : string) : string :=
  if String.eqb path "" then "."
  else
    let initial_slashes :=
      if Str.startswith path "/" then
        if Str.startswith path "//" && negb (Str.startswith path "///")
        then 2%nat else 1%nat
      else 0%nat in
    let comps := Str.split "/" path in
    let new_comps := fold_left (norm_step initial_slashes) comps [] in
    let joined := Str.join "/" new_comps in
    let path' :=
      match initial_slashes with
      | 0%nat => joined
      | 1%nat => "/" +:+ joined
      | _ => "//" +:+ joined
      end in
    if String.eqb path' "" then "." else path'.

(** [os.path.abspath(path)] in a process whose working directory is
    [cwd]. *)
Definition abspath (cwd path : string) : string :=
  normpath (if isabs path then path else join cwd path).

(** A normalised absolute path [p] lies in the directory [dir] when it
    is [dir] itself or continues it after a separator. *)
Definition inside (dir p : string) : bool :=
  String.eqb p dir || Str.startswith p (dir +:+ "/").

End PosixPath.

(** ** The reference-atlas setup cell of the two synphot notebooks *)

Module Synphot.

Definition tar_archive :=
  "hlsp_reference-atlases_hst_multi_everything_multi_v11_sed.tar".
Definition extract_to :=
  "hlsp_reference-atlases_hst_multi_everything_multi_v11_sed".

(** What the loop does with one member. *)
Inductive action : Type :=
| Extract (member_name : string) (destination : string)
| Skipped (message : string).

(** The test guarding [tar.extract]. *)
Definition guard (cwd member_name : string) : bool :=
  let abs_extract_to := PosixPath.abspath cwd extract_to in
  let member_path :=
    PosixPath.abspath cwd (PosixPath.join abs_extract_to member_name) in
  Str.startswith member_path abs_extract_to.

(** Where [tar.extract(member, path=extract_to)] writes the member:
    [os.path.join(path, member.name)], resolved against [cwd]. *)
Definition destination (cwd member_name : string) : string :=
  PosixPath.abspath cwd (PosixPath.join extract_to member_name).

(** Cells 5eb68a42 and its twin: the loop over [tar.getmembers()], as
    the list of what it asks for each member in turn.  An extraction
    that tarfile refuses ends the loop in Python; the list is what the
    loop asks up to there. *)
Definition extract_cell (cwd : string) (members : list string)
  : list action :=
  map (fun name =>
         if guard cwd name
         then Extract name (destination cwd name)
         else Skipped ("Skipped " +:+ name
                       +:+ " due to potential security risk"))
      members.

End Synphot.

(** ** The sky-matching notebook: the shift-file check *)

Module SkyMatching.

(** Text files on disk, by path, each as the lines a file object
    yields when iterated. *)
Abbreviation textfiles := (gmap string (list string)).

Definition message (line_number : nat) : string :=
  "nan found in line " +:+ Str.of_nat line_number +:+ " in shift file".

(** [for line_number, line in enumerate(shift, start=...)]. *)
Fixpoint check_lines (line_number : nat) (lines : list string)
  : Py.outcome unit :=
  match lines with
  | [] => Py.Ok tt
  | line :: rest =>
      if Str.contains "nan" line
      then Py.Raise (Py.ValueError (message line_number))
      else check_lines (S line_number) rest
  end.

(** Cell 24. *)
Definition shift_check_cell (fs : textfiles) : Py.outcome unit :=
  match fs !! "shift_drz.txt" with
  | None => Py.Raise (Py.FileNotFoundError "shift_drz.txt")
  | Some shift => check_lines 1 shift
  end.

End SkyMatching.

(** ** What the claims say, in terms independent of the cells *)

Module Spec.

(** [sub] occurs in [s] as a substring. *)
Definition has_substring (sub s : string) : Prop :=
  exists pre post, s = pre +:+ sub +:+ post.

(** [n] is the 1-based number of the first line containing "nan". *)
Definition first_nan_line (lines : list string) (n : nat) : Prop :=
  exists pre line post,
    lines = pre ++ line :: post /\
    n = S (length pre) /\
    has_substring "nan" line /\
    List.Forall (fun l => ~ has_substring "nan" l) pre.

(** An array filtered by the non-zero entries of [mask]: the entries of
    [b] at the positions where [mask] is not zero, in order. *)
Fixpoint where_nonzero (mask b : list Q) : list Q :=
  match mask, b with
  | m :: mask', x :: b' =>
      if Np.is_nonzero m then x :: where_nonzero mask' b'
      else where_nonzero mask' b'
  | _, _ => []
  end.

End Spec.

(** The naming convention of the co-add products, as the spec writes it:
    hst_<programID>_<instrument>_<target>_<grating>_<obset>_cspec.fits *)
Definition cspec_name (programID instrument target grating obset : string)
  : string :=
  Str.join "_"
    ["hst"; programID; instrument; target; grating; obset; "cspec.fits"].

Module ShiftExample.

(** A shift file whose third line reports a failed fit. *)
Definition failed : gmap string (list string) :=
  {["shift_drz.txt" :=
      ["# frame: output" +:+ String "010" "";
       "ibxl50030_drz.fits  0.10  0.20  0.001  1.00001  0.05  0.04"
         +:+ String "010" "";
       "ibxl53030_drz.fits  nan  nan  nan  nan  nan  nan"
         +:+ String "010" ""]]}.

End ShiftExample.

(** ** Code cells that act on the operating system

    The file system is an abstract world [W]; the library calls of the
    cell are the parameters of the section.  The calls of [os], [glob]
    and [shutil] fail with an operating-system error only. *)

Module OS.

(** The OSError family raised by os and shutil calls. *)
Inductive os_error : Type :=
| ENOENT | ENOTDIR | EACCES | EOTHER | SHUTIL.

(** The Python exception of an error; its text is abbreviated to the
    path the call was given. *)
Definition to_exn (e : os_error) (path : string) : Py.exn :=
  match e with
  | ENOENT => Py.FileNotFoundError path
  | ENOTDIR => Py.NotADirectoryError path
  | EACCES => Py.PermissionError path
  | EOTHER => Py.OSError path
  | SHUTIL => Py.ShutilError path
  end.

End OS.

Module Cell.
Section WithWorld.

Context {W : Type}.

(** The state a cell runs in: the world outside the kernel and what
    has been printed so far. *)
Record state : Type := State { world : W; stdout : list string }.

Definition M (A : Type) : Type := state -> Py.outcome A * state.

Definition ret {A} (a : A) : M A := fun s => (Py.Ok a, s).

Definition bind {A B} (m : M A) (k : A -> M B) : M B :=
  fun s =>
    match m s with
    | (Py.Ok a, s') => k a s'
    | (Py.Raise e, s') => (Py.Raise e, s')
    | (Py.NonFinite, s') => (Py.NonFinite, s')
    end.

Definition print (line : string) : M unit :=
  fun s => (Py.Ok tt, State (world s) (stdout s ++ [line])).

(** A call that only inspects the world. *)
Definition query {A} (f : W -> A) : M A := fun s => (Py.Ok (f (world s)), s).

(** A call that inspects the world and may fail. *)
Definition attempt {A} (f : W -> OS.os_error + A) (path : string) : M A :=
  fun s =>
    match f (world s) with
    | inl e => (Py.Raise (OS.to_exn e path), s)
    | inr a => (Py.Ok a, s)
    end.

(** A call that changes the world and may fail part-way. *)
Definition effect (f : W -> W * option OS.os_error) (path : string)
  : M unit :=
  fun s =>
    let '(w', r) := f (world s) in
    match r with
    | Some e => (Py.Raise (OS.to_exn e path), State w' (stdout s))
    | None => (Py.Ok tt, State w' (stdout s))
    end.

(** [for x in l: body(x)]. *)
Fixpoint for_each {A} (l : list A) (body : A -> M unit) : M unit :=
  match l with
  | [] => ret tt
  | x :: l' => bind (body x) (fun _ => for_each l' body)
  end.

(** [try: body  except Exception as e: handler(e)]. *)
Definition try_except_Exception (body : M unit)
    (handler : Py.exn -> M unit) : M unit :=
  fun s =>
    match body s with
    | (Py.Raise e, s') =>
        if Py.is_Exception e then handler e s' else (Py.Raise e, s')
    | r => r
    end.

End WithWorld.
Arguments state W : clear implicits.
Arguments M W A : clear implicits.
End Cell.

Notation "x <~ m ;; k" := (Cell.bind m (fun x => k))
  (at level 100, m at next level, right associativity).
Notation "m ;;; k" := (Cell.bind m (fun _ => k))
  (at level 100, right associativity).

Module Cleanup.
Section WithOS.

Context {W : Type}.
Variable os_path_exists : string -> W -> bool.
Variable os_listdir : string -> W -> OS.os_error + list string.
Variable glob_glob : string -> W -> list string.
Variable shutil_move : string -> string -> W -> W * option OS.os_error.
Variable shutil_rmtree : string -> W -> W * option OS.os_error.

(** [Path(file).name] for a path as [glob.glob] returns it for a
    pattern [<directory>/*fits]: the text after the last separator.
    Such a path ends neither in a separator nor in a [.] component,
    where pathlib would differ. *)
Definition name (file : string) : string :=
  List.last (Str.split "/" file) "".

(** The body of the [try] of cell c3409b7c. *)
Definition cleanup_body : Cell.M W unit :=
  let stis_data_dir := FluxScaling.stis_data_dir in
  let mast_path := stis_data_dir +:+ "/mastDownload/HST/" in
  present <~ Cell.query (os_path_exists mast_path) ;;
  (if negb present
   then Cell.print ("Directory " +:+ mast_path +:+ " doesn't exist.")
   else Cell.ret tt) ;;;
  obs_id_dirs <~ Cell.attempt (os_listdir mast_path) mast_path ;;
  Cell.for_each obs_id_dirs (fun obs_id =>
    let obs_id_path := PosixPath.join mast_path obs_id in
    stis_files <~ Cell.query (glob_glob (obs_id_path +:+ "/*fits")) ;;
    Cell.for_each stis_files (fun file =>
      let new_path := stis_data_dir +:+ "/" +:+ name file in
      Cell.effect (shutil_move file new_path) file)) ;;;
  present' <~ Cell.query (os_path_exists mast_path) ;;
  if present'
  then Cell.effect (shutil_rmtree (stis_data_dir +:+ "/mastDownload/"))
         (stis_data_dir +:+ "/mastDownload/")
  else Cell.ret tt.

(** Cell c3409b7c. *)
Definition cleanup_cell : Cell.M W unit :=
  Cell.try_except_Exception cleanup_body
    (fun e => Cell.print ("An error occurred: " +:+ Py.str_exn e)).

End WithOS.
End Cleanup.

(** A computation is [catchable] when, from every state, it returns or
    raises an exception that [except Exception] catches. *)
Definition catchable {W A} (m : Cell.M W A) : Prop :=
  forall s,
    match fst (m s) with
    | Py.Ok _ => True
    | Py.Raise e => Py.is_Exception e = true
    | Py.NonFinite => False
    end.

(** ** The notebooks as sequences of operations

    Every code cell is listed with the operations it performs on the
    outside world, in the order of its statements; statements inside a
    loop appear once.  A call of an external tool carries the files it
    writes that the notebook names or reads back, and the pipeline
    keywords that the call rewrites in the headers of existing files,
    by the notebook's own text: MDRIZSKY for AstroDrizzle (introduction
    of the sky-matching notebook); WCSNAME, the name of the header WCS,
    for the calls that update the header WCS, which are TweakReg with
    [updatehdr=True] and [tweakback.apply_tweak] (sections 2.6 and 2.7
    of the sky-matching notebook) and [updatewcs.updatewcs] (section 2
    of the ACS reduction notebook).  The TweakReg call of cell 23 runs
    with [updatehdr=False] and rewrites no header. *)

Module Notebook.

Inductive format : Type := FITS | PNG | GIF | ASCII | TAR.

Inductive access : Type := Read | Modify.

(** A piece of a shell line: literal text or an interpolated Python
    variable, [{name}]. *)
Inductive piece : Type :=
| Lit (text : string)
| Var (name : string).

Inductive op : Type :=
| Compute                       (* imports, assignments, arithmetic, print *)
| Housekeeping (what : string)  (* mkdir, rename, move, rmtree, environ *)
| Query (service : string)      (* a question to a remote archive *)
| Download (service : string) (outputs : list (string * format))
| Shell (line : list piece) (outputs : list (string * format))
| Tool (name : string) (outputs : list (string * format))
    (updates : list string)
| FitsOpen (file : string) (mode : access)
| FitsKey (file key : string) (a : access)
| ReadFile (path : string) (fmt : format)
| WriteFile (path : string) (fmt : format)
| Plot.

Definition cell : Type := string * list op.
Definition notebook : Type := list cell.

Definition ops (nb : notebook) : list op := flat_map snd nb.

(** [!line] with the variables replaced by their values. *)
Fixpoint render (env : string -> string) (line : list piece) : string :=
  match line with
  | [] => ""
  | Lit text :: rest => text +:+ render env rest
  | Var name :: rest => env name +:+ render env rest
  end.

(** The characters at which the shell splits a line: space, tab and
    newline. *)
Definition is_blank (c : ascii) : bool :=
  Ascii.eqb c " " || Ascii.eqb c "009" || Ascii.eqb c "010".

(** The shell's splitting of a line into words, for a line that holds
    no quoting, no expansion and no operator that is not a word of its
    own (the pipe of [yes | conda create ...] stands between blanks and
    counts as a word; the tool started is the first word). *)
Fixpoint words_from (cur s : string) : list string :=
  match s with
  | EmptyString =>
      if String.eqb cur "" then [] else [cur]
  | String c s' =>
      if is_blank c
      then if String.eqb cur "" then words_from "" s'
           else cur :: words_from "" s'
      else words_from (cur +:+ String c "") s'
  end.

Definition words (s : string) : list string := words_from "" s.

(** The HASP flux-scaling notebook (src/unnamed/part_000). *)
Definition flux_scaling : notebook :=
  [ ("4334aa1c", [Compute]);
    ("fd1dbe4b", [Compute; Housekeeping "mkdir"]);
    ("81f71475", [Query "MAST"]);
    ("6e229622", [Query "MAST";
                  Download "MAST" [("stis_data/mastDownload/HST/*/*.fits", FITS)]]);
    ("c3409b7c", [Housekeeping "move"; Housekeeping "rmtree"]);
    ("df8f9f02",
     [Shell [Lit "swrapper -i ./stis_data -o ./stis_products"]
        [("stis_products/hst_8435_stis_g191b2b_e140m_o5jy_cspec.fits",
          FITS)]]);
    ("aa6a3cd9", [Compute]);
    ("a2627f65",
     [FitsOpen "stis_products/{coadd}" Read;
      FitsKey "stis_products/{coadd}" "WAVELENGTH" Read;
      FitsKey "stis_products/{coadd}" "FLUX" Read;
      FitsOpen "stis_data/{filename}" Read;
      FitsKey "stis_data/{filename}" "WAVELENGTH" Read;
      FitsKey "stis_data/{filename}" "FLUX" Read;
      Plot; Plot;
      WriteFile "stis_products/flux_vs_wavelength.png" PNG;
      Plot]);
    ("237b8ca2",
     [FitsKey "stis_products/{coadd}" "SNR" Read;
      Plot;
      WriteFile "stis_products/snr_vs_wavelength_prescaled.png" PNG;
      Plot]);
    ("9709eca8",
     [FitsOpen "stis_data/o5jy03010_x1d.fits" Read;
      FitsKey "stis_data/o5jy03010_x1d.fits" "FLUX" Read;
      FitsOpen "stis_data/o5jy03020_x1d.fits" Read;
      FitsKey "stis_data/o5jy03020_x1d.fits" "FLUX" Read;
      FitsOpen "stis_data/o5jy03030_x1d.fits" Read;
      FitsKey "stis_data/o5jy03030_x1d.fits" "FLUX" Read;
      Compute]);
    ("a540864d", [Compute]);
    ("1d21666f",
     [FitsOpen "stis_data/{filename}" Read;
      FitsKey "stis_data/{filename}" "FLUX" Read;
      FitsKey "stis_data/{filename}" "WAVELENGTH" Read;
      FitsKey "stis_data/{filename}" "FLUX" Modify;
      WriteFile "stis_scaled_data/{filename}" FITS;
      Plot; Plot;
      WriteFile "./stis_scaled_data/scaled_flux_vs_wavelength.png" PNG;
      Plot]);
    ("7a298c68",
     [Shell [Lit "swrapper -i ./stis_scaled_data -o ./stis_scaled_products"]
        [("stis_scaled_products/hst_8435_stis_g191b2b_e140m_o5jy_cspec.fits",
          FITS)]]);
    ("3b31e8d5",
     [FitsOpen "stis_scaled_products/{coadd}" Read;
      FitsKey "stis_scaled_products/{coadd}" "WAVELENGTH" Read;
      FitsKey "stis_scaled_products/{coadd}" "FLUX" Read;
      FitsKey "stis_scaled_products/{coadd}" "SNR" Read;
      Compute; Plot;
      WriteFile "stis_scaled_products/scaled_rel_snr_vs_wavelength.png" PNG;
      Plot]) ].

(** The sky-matching notebook (src/unnamed/part_001); its cells carry
    no id and are named by their position. *)
Definition sky_matching : notebook :=
  [ ("cell 5", [Compute]);
    ("cell 7", [Query "MAST"; Query "MAST";
                Download "MAST" [("science/mastDownload/HST/*/*.fits", FITS)]]);
    ("cell 9", [Housekeeping "rename"; Housekeeping "rmtree"]);
    ("cell 11",
     [FitsKey "*fl?.fits" "ROOTNAME" Read; FitsKey "*fl?.fits" "ASN_ID" Read;
      FitsKey "*fl?.fits" "TARGNAME" Read; FitsKey "*fl?.fits" "DETECTOR" Read;
      FitsKey "*fl?.fits" "FILTER" Read; FitsKey "*fl?.fits" "EXPTIME" Read;
      FitsKey "*fl?.fits" "RA_TARG" Read; FitsKey "*fl?.fits" "DEC_TARG" Read;
      FitsKey "*fl?.fits" "POSTARG1" Read;
      FitsKey "*fl?.fits" "POSTARG2" Read;
      FitsKey "*fl?.fits" "DATE-OBS" Read;
      FitsKey "*fl?.fits" "ORIENTAT" Read;
      Compute]);
    ("cell 13",
     [FitsOpen "*dr?.fits" Read;
      FitsKey "*dr?.fits" "DETECTOR" Read;
      FitsKey "*dr?.fits" "WCSNAME" Read;
      FitsKey "*dr?.fits" "NMATCHES" Read;
      FitsKey "*dr?.fits" "RMS_RA" Read;
      FitsKey "*dr?.fits" "RMS_DEC" Read;
      FitsKey "*dr?.fits" "RMS_RA" Read;
      FitsKey "*dr?.fits" "DETECTOR" Read;
      FitsKey "*dr?.fits" "RMS_DEC" Read;
      FitsKey "*dr?.fits" "DETECTOR" Read;
      Compute]);
    ("cell 17", [Compute; Query "Gaia"]);
    ("cell 18", [WriteFile "gaia_no_pm.cat" ASCII]);
    ("cell 20", [Query "Gaia"; WriteFile "gaia_pm.cat" ASCII]);
    ("cell 23",
     [Tool "tweakreg.TweakReg"
        [("shift_drz.txt", ASCII);
         ("*_drz_catalog_fit.match", ASCII);
         ("residuals_*_drz.png", PNG)] []]);
    ("cell 24", [ReadFile "shift_drz.txt" ASCII]);
    ("cell 26", [ReadFile "shift_drz.txt" ASCII]);
    ("cell 28", [ReadFile "*_drz_catalog_fit.match" ASCII]);
    ("cell 30", [Compute]);
    ("cell 33",
     [FitsOpen "{rootname_A}_drz.fits" Read;
      FitsOpen "{rootname_B}_drz.fits" Read;
      Plot; Plot;
      ReadFile "{rootname_A}_drz_catalog_fit.match" ASCII;
      ReadFile "{rootname_B}_drz_catalog_fit.match" ASCII;
      Plot; Plot;
      ReadFile "residuals_{rootname_A}_drz.png" PNG;
      ReadFile "residuals_{rootname_B}_drz.png" PNG;
      Plot; Plot]);
    ("cell 36", [Tool "tweakreg.TweakReg" [] ["WCSNAME"]]);
    ("cell 38",
     [FitsOpen "*drz.fits" Read;
      FitsKey "*drz.fits" "WCSNAME" Read;
      Tool "tweakback.apply_tweak" [] ["WCSNAME"]]);
    ("cell 43",
     [Tool "astrodrizzle.AstroDrizzle"
        [("f160w_localmin_drz_sci.fits", FITS)]
        ["MDRIZSKY"]]);
    ("cell 46",
     [Tool "astrodrizzle.AstroDrizzle"
        [("f160w_match_drz_sci.fits", FITS);
         ("f160w_match_drz_wht.fits", FITS)]
        ["MDRIZSKY"]]);
    ("cell 49",
     [Tool "astrodrizzle.AstroDrizzle"
        [("f160w_globalmin_match_drz_sci.fits", FITS)]
        ["MDRIZSKY"]]);
    ("cell 52",
     [Tool "astrodrizzle.AstroDrizzle"
        [("f160w_globalmin_drz_sci.fits", FITS)]
        ["MDRIZSKY"]]);
    ("cell 56",
     [FitsKey "f160w_globalmin_drz_sci.fits" "rootname" Read;
      FitsKey "f160w_localmin_drz_sci.fits" "mdrizsky" Read;
      FitsKey "f160w_globalmin_drz_sci.fits" "mdrizsky" Read;
      FitsKey "f160w_globalmin_match_drz_sci.fits" "mdrizsky" Read;
      FitsKey "f160w_match_drz_sci.fits" "mdrizsky" Read]);
    ("cell 58", [Compute; Plot]);
    ("cell 60", [FitsOpen "f160w_match_drz_sci.fits" Read; Plot]);
    ("cell 61", [FitsOpen "f160w_match_drz_wht.fits" Read; Plot]) ].

Definition curl_atlases : op :=
  Shell
    [Lit "curl -O https://archive.stsci.edu/hlsps/reference-atlases/hlsp_reference-atlases_hst_multi_everything_multi_v11_sed.tar"]
    [("hlsp_reference-atlases_hst_multi_everything_multi_v11_sed.tar",
      TAR)].

(** The filter-transformation notebook (src/unnamed/part_002, first
    document). *)
Definition filter_transformations : notebook :=
  [ ("f014a9e2", [Compute]);
    ("ad199734", [curl_atlases]);
    ("5eb68a42",
     [ReadFile "hlsp_reference-atlases_hst_multi_everything_multi_v11_sed.tar"
        TAR;
      Housekeeping "tar.extract"; Housekeeping "environ"]);
    ("59b75282", [Compute]);
    ("9b40d583", [Compute]);
    ("64bf3cdc", [Compute]);
    ("55a83fe6", [Compute]);
    ("57cc10d1", [Compute]);
    ("6d5b3050", [Compute]);
    ("f1f99d2a", [Compute]);
    ("4b9a7577", [Tool "stsynphot.band" [] []; Compute]);
    ("bafd58e3", [Compute]);
    ("46610393", []);
    ("af690657", [Plot; Tool "stsynphot.band" [] []; Compute; Plot]) ].

(** The synthetic-photometry notebook (src/unnamed/part_002, second
    document). *)
Definition synthetic_photometry : notebook :=
  [ ("83593365", [Compute]);
    ("10709b0c", [curl_atlases]);
    ("162bc0c7",
     [ReadFile "hlsp_reference-atlases_hst_multi_everything_multi_v11_sed.tar"
        TAR;
      Housekeeping "tar.extract"; Housekeeping "environ"]);
    ("487dd24c", [Compute]);
    ("3b24c5f6", [Tool "stsynphot.band" [] []]);
    ("47c807c9", [Compute]);
    ("5729fe90", [Compute]);
    ("9df9b9ee", [Compute]);
    ("68ab0876", [Compute]);
    ("b2c1fbfa", [Tool "stsynphot.band" [] []]);
    ("b628298a", [Compute]);
    ("7cbdc0c2", [Compute]);
    ("2cbc838e", [Tool "stsynphot.band" [] []]);
    ("59037e43", [Tool "stsynphot.band" [] []]);
    ("2f0f8f30", [Compute]);
    ("04ae77f8", [Compute]);
    ("c1b14d64", [Tool "stsynphot.band" [] []]);
    ("2d16c712", [Compute]);
    ("d693ca97", [Compute]);
    ("0addd585", [Compute]);
    ("7d3aea32", [Tool "stsynphot.band" [] []]);
    ("d407ff54",
     [FitsOpen "example_spectra/gd153_stiswfcnic_003.fits" Read;
      FitsOpen "example_spectra/p330e_stiswfcnic_003.fits" Read]);
    ("8912d342", [Compute]);
    ("be12eb31", [Compute]);
    ("a64b9b78", [Compute]);
    ("c0817185", [Compute]);
    ("55ec62d9", [Compute]);
    ("7fd87c5c", [Plot]);
    ("9dd3642f", []) ].

(** The WFC3 exception-report notebook (src/unnamed/part_003). *)
Definition exception_report : notebook :=
  [ ("cell 8", [Compute]);
    ("cell 10",
     [Housekeeping "mkdir";
      Query "MAST"; Query "MAST";
      Download "MAST" [("mastDownload/HST/*/*.fits", FITS)];
      Housekeeping "rename"; Housekeeping "rmdir";
      Housekeeping "rmtree"]);
    ("cell 12", [FitsOpen "{exp_id}/*flt.fits" Read; Plot]);
    ("cell 14", [FitsOpen "{exp_id}/{exp_id}_jif.fits" Read]);
    ("cell 16", [FitsKey "{exp_id}/{exp_id}_jif.fits" "T_GSFAIL*" Read]);
    ("cell 18",
     [FitsKey "{exp_id}/{exp_id}_jif.fits" "NEXTEND" Read;
      FitsOpen "{exp_id}/{exp_id}_jif.fits" Read;
      FitsKey "{exp_id}/{exp_id}_jif.fits" "EXPNAME*" Read;
      FitsKey "{exp_id}/{exp_id}_jif.fits" "GUIDEACT*" Read;
      FitsKey "{exp_id}/{exp_id}_jif.fits" "GSACQ*" Read;
      FitsKey "{exp_id}/{exp_id}_jif.fits" "ACTGSSEP*" Read;
      FitsKey "{exp_id}/{exp_id}_jif.fits" "GSSEPRMS*" Read;
      FitsKey "{exp_id}/{exp_id}_jif.fits" " NLOSSES*" Read;
      FitsKey "{exp_id}/{exp_id}_jif.fits" "CRVAL1*" Read;
      FitsKey "{exp_id}/{exp_id}_jif.fits" "CRVAL2*" Read;
      FitsKey "{exp_id}/{exp_id}_jif.fits" "V2_RMS*" Read;
      FitsKey "{exp_id}/{exp_id}_jif.fits" "V3_RMS*" Read;
      FitsKey "{exp_id}/{exp_id}_jif.fits" "GSFAIL*" Read;
      Compute]);
    ("cell 21",
     [FitsKey "{exp_id}/{exp_id}_jit.fits" "NEXTEND" Read;
      FitsOpen "{exp_id}/{exp_id}_jit.fits" Read;
      FitsKey "{exp_id}/{exp_id}_jit.fits" "EXPNAME" Read;
      Plot;
      FitsKey "{exp_id}/{exp_id}_jit.fits" "Seconds" Read;
      FitsKey "{exp_id}/{exp_id}_jit.fits" "SI_V2_AVG" Read;
      FitsKey "{exp_id}/{exp_id}_jit.fits" "SI_V3_AVG" Read;
      FitsKey "{exp_id}/{exp_id}_jit.fits" "SI_V2_RMS" Read;
      FitsKey "{exp_id}/{exp_id}_jit.fits" "SI_V3_RMS" Read;
      Plot]);
    ("cell 25", [Compute]);
    ("cell 27",
     [FitsOpen "iepp01010/iepp01uvq_flt.fits" Read;
      FitsOpen "iepp01010/iepp01uvq_flt.fits" Read;
      Compute; Tool "photutils.DAOStarFinder" [] []; Compute; Plot]);
    ("cell 29",
     [Plot; Compute; Plot;
      FitsKey "iepp01010/iepp01uvq_flt.fits" "filter" Read;
      Plot]) ].

(** notebooks/ACS/acs_reduction/acs_reduction.ipynb. *)
Definition acs_reduction : notebook :=
  [ ("cell 2", [Compute]);
    ("cell 4", [Query "MAST"; Download "MAST" [("mastDownload/HST/*/*.fits", FITS)]]);
    ("cell 6", [Housekeeping "rename"; Housekeeping "rmtree"]);
    ("cell 8", [Compute]);
    ("cell 12",
     [FitsOpen "j9l960010_asn.fits" Read; FitsOpen "*_raw.fits" Read]);
    ("cell 13", [Shell [Lit "conda list hstcal"] []]);
    ("cell 15",
     [FitsOpen "j9l960010_asn.fits" Modify;
      FitsKey "j9l960010_asn.fits" "MEMTYPE" Read]);
    ("cell 17", [Compute]);
    ("cell 19", [FitsKey "*_raw.fits" "PCTECORR" Modify]);
    ("cell 21", [Housekeeping "environ"]);
    ("cell 23",
     [Shell [Lit "crds bestrefs --files "; Var "file";
             Lit " --sync-references=1 --update-bestrefs"] []]);
    ("cell 25",
     [Shell [Lit "calacs.e j9l960010_asn.fits"]
        [("j9l960a7q_flt.fits", FITS)]]);
    ("cell 27", [Compute]);
    ("cell 29",
     [FitsOpen "j9l960a7q_raw.fits" Read; FitsOpen "{fl_fits}" Read; Plot]);
    ("cell 31", [Compute; Tool "updatewcs.updatewcs" [] ["WCSNAME"]]);
    ("cell 34", []) ].

(** notebooks/HASP/Setup/Setup.ipynb. *)
Definition hasp_setup : notebook :=
  [ ("cdee82a9", [Shell [Lit "conda --version"] []]);
    ("2b4274ee", [Shell [Lit "conda config --add channels conda-forge"] []]);
    ("dd8a8c1b",
     [Shell
        [Lit "yes | conda create --name hasp-env python=3.11 notebook jupyterlab numpy astropy astroquery matplotlib"]
        []]);
    ("be54962c", [Shell [Lit "conda activate hasp-env"] []]);
    ("c16e5246", [Shell [Lit "pip install ./hasp/."] []]) ].

(** notebooks/ACS/acs_polarization_tools/acs_polarization_tools.ipynb. *)
Definition acs_polarization_tools : notebook :=
  [ ("cell 2", [Compute]);
    ("cell 4", [Tool "polarization_tools.PolarizerTables" [] []; Compute]);
    ("cell 5", [Compute]);
    ("cell 7", [Compute]);
    ("cell 9", [Tool "polarization_tools.Polarization" [] []; Compute]);
    ("cell 11", [Compute]);
    ("cell 13", []) ].

Definition repository : list notebook :=
  [flux_scaling; sky_matching; filter_transformations;
   synthetic_photometry; exception_report; acs_reduction; hasp_setup;
   acs_polarization_tools].

Definition all_ops : list op := flat_map ops repository.

(** *** File writes *)

(** The files an operation writes under a name the code gives. *)
Definition written (o : op) : list (string * format) :=
  match o with
  | WriteFile path fmt => [(path, fmt)]
  | Download _ outputs | Shell _ outputs | Tool _ outputs _ => outputs
  | _ => []
  end.

Definition format_eqb (a b : format) : bool :=
  match a, b with
  | FITS, FITS | PNG, PNG | GIF, GIF | ASCII, ASCII | TAR, TAR => true
  | _, _ => false
  end.

Definition format_in (allowed : list format) (w : string * format) : bool :=
  existsb (format_eqb (snd w)) allowed.

(** *** Keyword accesses *)








(** *** Phases *)

Inductive phase : Type := PDownload | PTool | PLoadPlot.

Definition phase_rank (p : phase) : nat :=
  match p with PDownload => 0 | PTool => 1 | PLoadPlot => 2 end.

(** The phase of the spec's three an operation belongs to, if any. *)
Definition phase_of (o : op) : option phase :=
  match o with
  | Query _ | Download _ _ => Some PDownload
  | Shell _ _ | Tool _ _ _ => Some PTool
  | FitsOpen _ Read | FitsKey _ _ Read | ReadFile _ _ | Plot
  | WriteFile _ PNG => Some PLoadPlot
  | _ => None
  end.

Definition phases (nb : notebook) : list phase :=
  omap phase_of (ops nb).

(** No step of a later phase precedes a step of an earlier one. *)
Fixpoint phase_ordered (l : list phase) : bool :=
  match l with
  | [] => true
  | p :: l' =>
      forallb (fun q => (phase_rank p <=? phase_rank q)%nat) l'
      && phase_ordered l'
  end.

Definition phase_eqb (p q : phase) : bool :=
  Nat.eqb (phase_rank p) (phase_rank q).

(** The phases in order of occurrence, each run of equal phases
    counted once. *)
Fixpoint runs (l : list phase) : list phase :=
  match l with
  | [] => []
  | p :: l' =>
      match l' with
      | q :: _ => if phase_eqb p q then runs l' else p :: runs l'
      | [] => [p]
      end
  end.

Definition all_written : list (string * format) :=
  flat_map written all_ops.


End Notebook.

(** ** The command-line interfaces the spec lists *)

Module CLI.












End CLI.

(** ** Conditions and models used by the further properties *)

(** The input a file name must have for the loop to process it. *)
Definition rescalable (fs : Fits.filesystem) (name : string) : Prop :=
  exists (t : gmap string Np.ndarray) (flux w : Np.ndarray),
    fs !! FluxScaling.fpath FluxScaling.stis_data_dir name = Some t /\
    t !! "FLUX" = Some flux /\ t !! "WAVELENGTH" = Some w.

Module RescaleExample.

(** The file system the rescaling loop leaves when run on
    [Example.stis_data] with the factors 1, 2 and 4. *)
Definition scaled : Fits.filesystem :=
  <["stis_scaled_data/o5jy03030_x1d.fits" :=
      Example.x1d Example.wave (Np.multiply Example.flux_030 4)]>
  (<["stis_scaled_data/o5jy03020_x1d.fits" :=
       Example.x1d Example.wave (Np.multiply Example.flux_020 2)]>
   (<["stis_scaled_data/o5jy03010_x1d.fits" :=
        Example.x1d Example.wave (Np.multiply Example.flux_010 1)]>
    Example.stis_data)).

End RescaleExample.

(** Paths given by their components. *)
Module Components.

(** A component that names a file or directory: not empty, not [.] or
    [..], without a separator. *)
Definition normal (c : string) : bool :=
  negb (String.eqb c "") && negb (String.eqb c ".")
  && negb (String.eqb c "..") && negb (Str.contains "/" c).

(** The absolute path with the given components. *)
Definition absolute (comps : list string) : string :=
  "/" +:+ Str.join "/" comps.

End Components.

(** The rescaling loop with its plot: cells a2627f65 and 1d21666f. *)
Module RescalePlot.

(** Cell a2627f65: [colors = ["red", "blue", "orange"]]. *)
Definition colors : list string := ["red"; "blue"; "orange"].

(** [plt.scatter(x, y, ...)]: ValueError when the two arrays differ in
    size. *)
Definition scatter (x y : Np.ndarray) : Py.outcome unit :=
  if Nat.eqb (length x) (length y) then Py.Ok tt
  else Py.Raise (Py.ValueError "x and y must be the same size").

(** Cell 1d21666f with the plot of each spectrum: the arguments of
    [plt.scatter], among them [colors[i]], are evaluated after the
    scaled file is written. *)
Fixpoint rescale_loop (colors : list string) (i : nat)
    (fnames : list string) (scale_factor : list Q) (fs : Fits.filesystem)
  : Py.outcome Fits.filesystem :=
  match fnames with
  | [] => Py.Ok fs
  | filename :: rest =>
      g191_data <- Fits.open fs
                     (FluxScaling.fpath FluxScaling.stis_data_dir filename) ;;
      flux <- Fits.column g191_data "FLUX" ;;
      wavelength <- Fits.column g191_data "WAVELENGTH" ;;
      match nth_error scale_factor i with
      | None => Py.Raise (Py.IndexError "list index out of range")
      | Some s =>
          let g191_data' := <["FLUX" := Np.multiply flux s]> g191_data in
          let fs' :=
            Fits.writeto fs
              (FluxScaling.fpath FluxScaling.stis_scaled_data_dir filename)
              g191_data' in
          match nth_error colors i with
          | None => Py.Raise (Py.IndexError "list index out of range")
          | Some _ =>
              _ <- scatter wavelength flux ;;
              rescale_loop colors (S i) rest scale_factor fs'
          end
      end
  end.

(** The input a file name must have for the loop to process and plot
    it: a table with FLUX and WAVELENGTH columns of one size. *)
Definition plottable (fs : Fits.filesystem) (name : string) : Prop :=
  exists (t : gmap string Np.ndarray) (flux w : Np.ndarray),
    fs !! FluxScaling.fpath FluxScaling.stis_data_dir name = Some t /\
    t !! "FLUX" = Some flux /\ t !! "WAVELENGTH" = Some w /\
    length w = length flux.

End RescalePlot.

(** ** The filter-transformation notebook: the table of colour terms

    The synthetic photometry itself is stsynphot's: [effstim] stands for
    the effective stimulus of the source spectrum through the bandpass of
    an observation mode in a flux unit, [format_3f] for the [:.3f]
    formatting of a float. *)

Module ColorTable.
Section WithSynphot.

Context {U : Type}.
Variable effstim : string -> U -> Q.
Variable format_3f : Q -> string.

(** A magnitude system: its name, its flux unit and its toggle. *)
Definition mag : Type := string * U * bool.

(** Cells 6d5b3050 and f1f99d2a: the column names. *)
Definition cols (mags : list mag) : list string :=
  ["Filter Pair"; "Chip"]
  ++ flat_map (fun m : mag =>
                 let '(name, _, toggle) := m in
                 if toggle then [name +:+ " Color Term"] else [])
              mags.

(** The inner loop of cell 4b9a7577 over the magnitude systems. *)
Definition color_terms (comparison_obsmode uvis_obsmode : string)
    (mags : list mag) : list string :=
  flat_map (fun m : mag =>
              let '(_, unit, toggle) := m in
              if toggle
              then [format_3f (effstim comparison_obsmode unit
                               - effstim uvis_obsmode unit)%Q]
              else [])
           mags.

(** The loop [for i, toggle in enumerate(chips)], started at index
    [i]. *)
Fixpoint chip_rows (i : nat) (chips : list bool)
    (comparison_filter uvis_filter : string) (mags : list mag)
  : list (list string) :=
  match chips with
  | [] => []
  | toggle :: rest =>
      (if toggle then
         let filt_str := comparison_filter +:+ " - " +:+ uvis_filter in
         let chip_str := "UVIS" +:+ Str.of_nat (i + 1) in
         let comparison_obsmode := comparison_filter in
         let uvis_obsmode := "wfc3, " +:+ chip_str +:+ ", " +:+ uvis_filter in
         [[filt_str; chip_str]
          ++ color_terms comparison_obsmode uvis_obsmode mags]
       else [])
      ++ chip_rows (S i) rest comparison_filter uvis_filter mags
  end.

(** Cell 4b9a7577: the rows, one per filter pair and enabled chip. *)
Definition rows (filter_pairs : list (string * string)) (chips : list bool)
    (mags : list mag) : list (list string) :=
  flat_map (fun pair : string * string =>
              let '(comparison_filter, uvis_filter) := pair in
              chip_rows 0 chips comparison_filter uvis_filter mags)
           filter_pairs.

End WithSynphot.
End ColorTable.

(** ** The ACS reduction notebook: the PCTECORR switch *)

Module AcsReduction.

(** The primary headers of the FITS files on disk: path, then keyword,
    to value. *)
Abbreviation headers := (gmap string (gmap string string)).



End AcsReduction.

Module AcsExample.



End AcsExample.

(** ** Text files as Python reads them *)

Module TextIO.

(** The lines a text file object yields when iterated, for the decoded
    content [s] (line ends already translated to the line feed): each
    line keeps its line feed, the last one may lack it. *)
Fixpoint readlines (s : string) : list string :=
  match s with
  | EmptyString => []
  | String c s' =>
      if Ascii.eqb c "010" then String c EmptyString :: readlines s'
      else match readlines s' with
           | [] => [String c EmptyString]
           | l :: ls => String c l :: ls
           end
  end.

(** Cell 24 of the sky-matching notebook on a file system that holds
    the content of each text file. *)
Definition shift_check_file (fs : gmap string string) : Py.outcome unit :=
  match fs !! "shift_drz.txt" with
  | None => Py.Raise (Py.FileNotFoundError "shift_drz.txt")
  | Some content => SkyMatching.check_lines 1 (readlines content)
  end.

End TextIO.

(** ** Cells over a world that records what is asked of os and shutil *)

Module Trace.

(** A move or rename with its outcome, or the removal of a tree. *)
Inductive event : Type :=
| Moved (src dst : string) (failed : bool)
| Removed (path : string).

Definition trace : Type := list event.

Definition failed_flag (r : option OS.os_error) : bool :=
  match r with Some _ => true | None => false end.

Definition traced_move
    (fails : string -> string -> trace -> option OS.os_error)
    (src dst : string) (w : trace) : trace * option OS.os_error :=
  (w ++ [Moved src dst (failed_flag (fails src dst w))], fails src dst w).

Definition traced_rmtree (fails : string -> trace -> option OS.os_error)
    (path : string) (w : trace) : trace * option OS.os_error :=
  (w ++ [Removed path], fails path w).

(** Every recorded move succeeded and nothing was removed. *)
Definition all_moved (w : trace) : Prop :=
  List.Forall (fun ev => exists src dst, ev = Moved src dst false) w.

(** A tree was removed only with every recorded move a success. *)
Definition removed_after_moves (w : trace) : Prop :=
  (exists path, In (Removed path) w) ->
  forall src dst failed, In (Moved src dst failed) w -> failed = false.

End Trace.

(** From a world in [P] the cell ends in [Qok] when it returns and in
    [Qerr] when it raises. *)
Definition triple {W A} (P : W -> Prop) (m : Cell.M W A)
    (Qok Qerr : W -> Prop) : Prop :=
  forall s, P (Cell.world s) ->
    match fst (m s) with
    | Py.Ok _ => Qok (Cell.world (snd (m s)))
    | _ => Qerr (Cell.world (snd (m s)))
    end.

(** ** The ACS reduction notebook: moving the downloads *)

Module AcsDownload.
Section WithOS.

Context {W : Type}.
Variable os_rename : string -> string -> W -> W * option OS.os_error.
Variable shutil_rmtree : string -> W -> W * option OS.os_error.

(** [os.path.basename(p)]: what follows the last separator. *)
Definition basename (p : string) : string :=
  List.last (Str.split "/" p) "".

(** Cell 6: [local_paths] holds the 'Local Path' entry of each row of
    [dl_table]. *)
Definition rename_cell (local_paths : list string) : Cell.M W unit :=
  Cell.for_each local_paths (fun oldfname =>
    let newfname := basename oldfname in
    Cell.effect (os_rename oldfname newfname) oldfname) ;;;
  Cell.effect (shutil_rmtree "mastDownload") "mastDownload".

End WithOS.
End AcsDownload.

(** * Theorems *)

(** ** Sorting and the median under a positive rescaling *)










Lemma divide_nonzero (x y : Q) :
  ~ (y == 0)%Q -> Np.divide x y = Some (x / y)%Q.
Proof.
  intros Hy. unfold Np.divide.
  destruct (Qeq_bool y 0) eqn:E; [|reflexivity].
  apply Qeq_bool_iff in E. contradiction.
Qed.



(** ** The SNR ratio *)

Lemma take_nonzero_self (p a : list Q) :
  Np.take (p ++ a) (Np.nonzero_from (length p) a)
  = Py.Ok (List.filter Np.is_nonzero a).
Proof.
  revert p. induction a as [|x a IH]; intros p; simpl; [reflexivity|].
  assert (Hshift : p ++ x :: a = (p ++ [x]) ++ a) by now rewrite <- app_assoc.
  assert (Hlen : S (length p) = length (p ++ [x])).
  { rewrite length_app. simpl. lia. }
  unfold Np.is_nonzero. destruct (Qeq_bool x 0); simpl.
  - rewrite Hshift, Hlen. apply IH.
  - rewrite nth_error_app2 by lia. rewrite Nat.sub_diag. simpl.
    rewrite Hshift, Hlen, IH. reflexivity.
Qed.

Lemma filter_is_nonzero (a : list Q) :
  Forall (fun x => ~ (x == 0)%Q) (List.filter Np.is_nonzero a).
Proof.
  apply List.Forall_forall. intros x Hx. apply List.filter_In in Hx as [_ Hx].
  unfold Np.is_nonzero in Hx. intros E. apply Qeq_bool_iff in E.
  rewrite E in Hx. discriminate.
Qed.

Lemma divide_arrays_nonzero (d : list Q) :
  Forall (fun x => ~ (x == 0)%Q) d ->
  forall sn, length sn = length d ->
  exists r, Np.divide_arrays sn d = Some r /\
            Forall2 (fun q xy => q = (fst xy / snd xy)%Q) r (combine sn d).
Proof.
  induction 1 as [|y d Hy Hd IH]; intros [|x sn] Hlen; simpl in *;
    try discriminate.
  - exists []. split; [reflexivity|constructor].
  - destruct (IH sn) as (r & Hr & Hall); [lia|].
    rewrite (divide_nonzero x y Hy), Hr.
    exists ((x / y)%Q :: r). split; [reflexivity|].
    constructor; [reflexivity|exact Hall].
Qed.

Lemma take_where_nonzero (p a b : list Q) :
  (length a <= length b)%nat ->
  Np.take (p ++ b) (Np.nonzero_from (length p) a)
  = Py.Ok (Spec.where_nonzero a b).
Proof.
  revert p b. induction a as [|x a IH]; intros p b Hlen; simpl in *.
  - reflexivity.
  - destruct b as [|y b]; simpl in Hlen; [lia|].
    assert (Hshift : p ++ y :: b = (p ++ [y]) ++ b) by now rewrite <- app_assoc.
    assert (Hl : S (length p) = length (p ++ [y])).
    { rewrite length_app. simpl. lia. }
    unfold Np.is_nonzero. destruct (Qeq_bool x 0); simpl.
    + rewrite Hshift, Hl. apply IH. lia.
    + rewrite nth_error_app2 by lia. rewrite Nat.sub_diag. simpl.
      rewrite Hshift, Hl, IH by lia. reflexivity.
Qed.

Lemma where_nonzero_self (a : list Q) :
  Spec.where_nonzero a a = List.filter Np.is_nonzero a.
Proof.
  induction a as [|x a IH]; simpl; [reflexivity|].
  destruct (Np.is_nonzero x); now rewrite IH.
Qed.

Lemma length_where_nonzero (a b : list Q) :
  (length a <= length b)%nat ->
  length (Spec.where_nonzero a b) = length (List.filter Np.is_nonzero a).
Proof.
  revert b. induction a as [|x a IH]; intros [|y b] Hlen; simpl in *;
    try reflexivity; try lia.
  destruct (Np.is_nonzero x); simpl; rewrite IH by lia; reflexivity.
Qed.

Lemma take_nth_error (b : list Q) (idx : list nat) (r : list Q) :
  Np.take b idx = Py.Ok r -> map Some r = map (nth_error b) idx.
Proof.
  revert r. induction idx as [|i idx IH]; intros r H; simpl in *.
  - injection H as <-. reflexivity.
  - destruct (nth_error b i) as [x|]; [|discriminate].
    destruct (Np.take b idx) as [r'| |]; simpl in H; try discriminate.
    injection H as <-. simpl. now rewrite (IH r' eq_refl).
Qed.

(** C10: the ratio of scaled to original SNR is taken over the entries
    selected by [np.nonzero(SNR)]: the divisor is the original SNR with
    its zeros filtered out, none of its elements is zero, the ratio is
    the elementwise quotient over exactly those entries, and the scaled
    SNR, the original SNR and the wavelengths are all three filtered by
    the same indices: each is the array of its entries at the positions
    where SNR is not zero, which are the entries at the indices
    [np.nonzero(SNR)]. *)
Theorem C10_snr_ratio_divisor_nonzero (SNR SNR_scaled w_scaled : Np.ndarray) :
  (length SNR <= length SNR_scaled)%nat ->
  (length SNR <= length w_scaled)%nat ->
  exists SNR_scaled_nonzero SNR_nonzero ratio w_scaled_nonzero,
    FluxScaling.snr_ratio_cell SNR SNR_scaled w_scaled
      = Py.Ok (SNR_scaled_nonzero, SNR_nonzero, ratio, w_scaled_nonzero) /\
    SNR_nonzero = List.filter Np.is_nonzero SNR /\
    List.Forall (fun d => ~ (d == 0)%Q) SNR_nonzero /\
    length SNR_scaled_nonzero = length SNR_nonzero /\
    length w_scaled_nonzero = length SNR_nonzero /\
    Forall2 (fun q xy => q = (fst xy / snd xy)%Q) ratio
      (combine SNR_scaled_nonzero SNR_nonzero) /\
    SNR_scaled_nonzero = Spec.where_nonzero SNR SNR_scaled /\
    SNR_nonzero = Spec.where_nonzero SNR SNR /\
    w_scaled_nonzero = Spec.where_nonzero SNR w_scaled /\
    map Some SNR_scaled_nonzero = map (nth_error SNR_scaled) (Np.nonzero SNR) /\
    map Some SNR_nonzero = map (nth_error SNR) (Np.nonzero SNR) /\
    map Some w_scaled_nonzero = map (nth_error w_scaled) (Np.nonzero SNR).
Proof.
  intros Hlen Hlenw. unfold FluxScaling.snr_ratio_cell, Np.nonzero.
  pose proof (take_where_nonzero [] SNR SNR_scaled Hlen) as Hsn.
  pose proof (take_where_nonzero [] SNR w_scaled Hlenw) as Hwn.
  pose proof (take_where_nonzero [] SNR SNR (le_n _)) as Hself.
  simpl in Hsn, Hwn, Hself.
  pose proof (length_where_nonzero SNR SNR_scaled Hlen) as Hl.
  pose proof (length_where_nonzero SNR w_scaled Hlenw) as Hlw.
  destruct (divide_arrays_nonzero _ (filter_is_nonzero SNR) _ Hl)
    as (r & Hr & Hall).
  exists (Spec.where_nonzero SNR SNR_scaled), (List.filter Np.is_nonzero SNR),
    r, (Spec.where_nonzero SNR w_scaled).
  rewrite where_nonzero_self in Hself.
  rewrite Hsn, Hself. simpl. rewrite Hr. simpl. rewrite Hwn. simpl.
  repeat split; try assumption; try apply filter_is_nonzero.
  - symmetry. apply where_nonzero_self.
  - exact (take_nth_error _ _ _ Hsn).
  - exact (take_nth_error _ _ _ Hself).
  - exact (take_nth_error _ _ _ Hwn).
Qed.

(** C10 on a four-entry SNR with two zeros. *)
Lemma C10_witness :
  exists SNR_scaled_nonzero SNR_nonzero ratio w_scaled_nonzero,
    FluxScaling.snr_ratio_cell [4; 0; 2; 0 # 3]%Q [6; 9; 3; 1]%Q
      [1450; 1460; 1470; 1480]%Q
      = Py.Ok (SNR_scaled_nonzero, SNR_nonzero, ratio, w_scaled_nonzero) /\
    SNR_nonzero = List.filter Np.is_nonzero [4; 0; 2; 0 # 3]%Q /\
    List.Forall (fun d => ~ (d == 0)%Q) SNR_nonzero /\
    length SNR_scaled_nonzero = length SNR_nonzero /\
    length w_scaled_nonzero = length SNR_nonzero /\
    Forall2 (fun q xy => q = (fst xy / snd xy)%Q) ratio
      (combine SNR_scaled_nonzero SNR_nonzero) /\
    SNR_scaled_nonzero
      = Spec.where_nonzero [4; 0; 2; 0 # 3]%Q [6; 9; 3; 1]%Q /\
    SNR_nonzero
      = Spec.where_nonzero [4; 0; 2; 0 # 3]%Q [4; 0; 2; 0 # 3]%Q /\
    w_scaled_nonzero
      = Spec.where_nonzero [4; 0; 2; 0 # 3]%Q [1450; 1460; 1470; 1480]%Q /\
    map Some SNR_scaled_nonzero
      = map (nth_error [6; 9; 3; 1]%Q) (Np.nonzero [4; 0; 2; 0 # 3]%Q) /\
    map Some SNR_nonzero
      = map (nth_error [4; 0; 2; 0 # 3]%Q) (Np.nonzero [4; 0; 2; 0 # 3]%Q) /\
    map Some w_scaled_nonzero
      = map (nth_error [1450; 1460; 1470; 1480]%Q)
          (Np.nonzero [4; 0; 2; 0 # 3]%Q).
Proof.
  apply (C10_snr_ratio_divisor_nonzero [4; 0; 2; 0 # 3]%Q [6; 9; 3; 1]%Q
           [1450; 1460; 1470; 1480]%Q); simpl; lia.
Defined.

Example snr_ratio_example :
  FluxScaling.snr_ratio_cell [4; 0; 2; 0 # 3]%Q [6; 9; 3; 1]%Q
    [1450; 1460; 1470; 1480]%Q
  = Py.Ok ([6; 3]%Q, [4; 2]%Q, [6 / 4; 3 / 2]%Q, [1450; 1470]%Q).
Proof. reflexivity. Qed.


Example normpath_dotdot :
  PosixPath.normpath "/a/b/../c//./d/" = "/a/c/d".
Proof. reflexivity. Qed.

Example normpath_root_dotdot : PosixPath.normpath "/../x" = "/x".
Proof. reflexivity. Qed.

Example normpath_relative : PosixPath.normpath "../../x/.." = "../..".
Proof. reflexivity. Qed.

Example normpath_two_slashes : PosixPath.normpath "//a///b" = "//a/b".
Proof. reflexivity. Qed.

Example abspath_relative :
  PosixPath.abspath "/home/user" "data/../x" = "/home/user/x".
Proof. reflexivity. Qed.

Example split_example : Str.split "/" "/a//b" = [""; "a"; ""; "b"].
Proof. reflexivity. Qed.

Example of_nat_example : Str.of_nat 12 = "12".
Proof. reflexivity. Qed.

(** ** Substring search *)

Lemma prefix_spec (p s : string) :
  String.prefix p s = true <-> exists post, s = p +:+ post.
Proof.
  revert s. induction p as [|a p IH]; intros s; simpl.
  - split; [intros _; now exists s|]. now destruct s.
  - destruct s as [|b s]; simpl.
    + split; [discriminate|]. intros [post H]. discriminate.
    + destruct (ascii_dec a b) as [->|Hab].
      * rewrite IH. split; intros [post H]; exists post.
        -- now rewrite H.
        -- now injection H.
      * split; [discriminate|]. intros [post H]. injection H as H1 H2.
        congruence.
Qed.

Lemma contains_spec (sub s : string) :
  Str.contains sub s = true <-> Spec.has_substring sub s.
Proof.
  unfold Spec.has_substring. induction s as [|c s IH]; cbn [Str.contains].
  - destruct (String.prefix sub "") eqn:E.
    + split; [intros _|reflexivity].
      apply prefix_spec in E as [post E]. now exists "", post.
    + split; [discriminate|]. intros (pre & post & H).
      destruct pre; simpl in H.
      * assert (String.prefix sub "" = true)
          by (apply prefix_spec; now exists post).
        congruence.
      * discriminate.
  - destruct (String.prefix sub (String c s)) eqn:E.
    + split; [intros _|reflexivity].
      apply prefix_spec in E as [post E]. now exists "", post.
    + rewrite IH. split.
      * intros (pre & post & H). exists (String c pre), post.
        simpl. now rewrite H.
      * intros (pre & post & H). destruct pre as [|c' pre]; simpl in H.
        -- assert (String.prefix sub (String c s) = true)
             by (apply prefix_spec; now exists post).
           congruence.
        -- injection H as _ H. now exists pre, post.
Qed.

(** ** The shift-file check *)

Lemma check_lines_clean (start : nat) (lines : list string) :
  List.Forall (fun l => ~ Spec.has_substring "nan" l) lines ->
  SkyMatching.check_lines start lines = Py.Ok tt.
Proof.
  intros H. revert start. induction H as [|l lines Hl _ IH]; intros start.
  - reflexivity.
  - simpl. destruct (Str.contains "nan" l) eqn:E.
    + apply contains_spec in E. contradiction.
    + apply IH.
Qed.

Lemma check_lines_first (start : nat) (pre : list string) (line : string)
    (post : list string) :
  List.Forall (fun l => ~ Spec.has_substring "nan" l) pre ->
  Spec.has_substring "nan" line ->
  SkyMatching.check_lines start (pre ++ line :: post)
  = Py.Raise (Py.ValueError (SkyMatching.message (start + length pre))).
Proof.
  intros Hpre Hline. revert start.
  induction Hpre as [|l pre Hl _ IH]; intros start.
  - simpl. apply contains_spec in Hline. rewrite Hline.
    now rewrite Nat.add_0_r.
  - simpl. destruct (Str.contains "nan" l) eqn:E.
    + apply contains_spec in E. contradiction.
    + rewrite IH. do 3 f_equal. lia.
Qed.

Lemma lines_clean_or_first (lines : list string) :
  List.Forall (fun l => ~ Spec.has_substring "nan" l) lines \/
  exists pre line post,
    lines = pre ++ line :: post /\
    Spec.has_substring "nan" line /\
    List.Forall (fun l => ~ Spec.has_substring "nan" l) pre.
Proof.
  induction lines as [|l lines IH].
  - left. constructor.
  - destruct (Str.contains "nan" l) eqn:E.
    + right. exists [], l, lines. apply contains_spec in E.
      repeat split; [exact E|constructor].
    + assert (Hl : ~ Spec.has_substring "nan" l).
      { intros H. apply contains_spec in H. congruence. }
      destruct IH as [IH|(pre & line & post & -> & Hline & Hpre)].
      * left. now constructor.
      * right. exists (l :: pre), line, post.
        repeat split; [exact Hline|now constructor].
Qed.

(** C4: on an existing shift file the check raises a ValueError exactly
    when some line contains "nan"; whatever it raises is the ValueError
    that reports the 1-based number of the first such line; and when no
    line contains "nan" it completes normally. *)
Theorem C4_shift_check (fs : gmap string (list string))
    (shift : list string) :
  fs !! "shift_drz.txt" = Some shift ->
  ((exists msg, SkyMatching.shift_check_cell fs
                = Py.Raise (Py.ValueError msg))
   <-> List.Exists (Spec.has_substring "nan") shift) /\
  (forall e, SkyMatching.shift_check_cell fs = Py.Raise e ->
     exists n, Spec.first_nan_line shift n /\
               e = Py.ValueError
                     ("nan found in line " +:+ Str.of_nat n
                      +:+ " in shift file")) /\
  (List.Forall (fun l => ~ Spec.has_substring "nan" l) shift ->
   SkyMatching.shift_check_cell fs = Py.Ok tt).
Proof.
  intros Hfs. unfold SkyMatching.shift_check_cell. rewrite Hfs.
  destruct (lines_clean_or_first shift)
    as [Hclean|(pre & line & post & -> & Hline & Hpre)].
  - rewrite (check_lines_clean 1 shift Hclean).
    split; [|split].
    + split; [intros [msg H]; discriminate|].
      intros HE. apply List.Exists_exists in HE as (l & Hin & Hl).
      rewrite List.Forall_forall in Hclean. now apply Hclean in Hin.
    + intros e H. discriminate.
    + reflexivity.
  - rewrite (check_lines_first 1 pre line post Hpre Hline).
    split; [|split].
    + split; [intros _|intros _; eexists; reflexivity].
      apply List.Exists_exists. exists line. split; [|exact Hline].
      apply in_or_app. right. now left.
    + intros e [= <-]. exists (S (length pre)). split; [|reflexivity].
      exists pre, line, post. repeat split; assumption.
    + intros Hall. apply List.Forall_app in Hall as [_ Hall].
      inversion Hall; contradiction.
Qed.

(** ** The directory cleanup *)

Section CatchableCells.

Context {W : Type}.

Lemma to_exn_is_Exception (e : OS.os_error) (path : string) :
  Py.is_Exception (OS.to_exn e path) = true.
Proof. now destruct e. Qed.

Lemma catchable_ret {A} (a : A) : catchable (W := W) (Cell.ret a).
Proof. intros s. exact I. Qed.

Lemma catchable_print (line : string) :
  catchable (W := W) (Cell.print line).
Proof. intros s. exact I. Qed.

Lemma catchable_query {A} (f : W -> A) : catchable (Cell.query f).
Proof. intros s. exact I. Qed.

Lemma catchable_attempt {A} (f : W -> OS.os_error + A) (path : string) :
  catchable (Cell.attempt f path).
Proof.
  intros s. unfold Cell.attempt.
  destruct (f (Cell.world s)); simpl; [apply to_exn_is_Exception|exact I].
Qed.

Lemma catchable_effect (f : W -> W * option OS.os_error) (path : string) :
  catchable (Cell.effect f path).
Proof.
  intros s. unfold Cell.effect.
  destruct (f (Cell.world s)) as [w' [e|]]; simpl;
    [apply to_exn_is_Exception|exact I].
Qed.

Lemma catchable_bind {A B} (m : Cell.M W A) (k : A -> Cell.M W B) :
  catchable m -> (forall a, catchable (k a)) -> catchable (Cell.bind m k).
Proof.
  intros Hm Hk s. unfold Cell.bind. specialize (Hm s).
  destruct (m s) as [[a|e|] s']; simpl in *;
    [apply Hk|exact Hm|exact Hm].
Qed.

Lemma catchable_for_each {A} (l : list A) (body : A -> Cell.M W unit) :
  (forall x, catchable (body x)) -> catchable (Cell.for_each l body).
Proof.
  intros Hbody. induction l as [|x l IH]; simpl.
  - apply catchable_ret.
  - apply catchable_bind; [apply Hbody|intros _; exact IH].
Qed.

Variable os_path_exists : string -> W -> bool.
Variable os_listdir : string -> W -> OS.os_error + list string.
Variable glob_glob : string -> W -> list string.
Variable shutil_move : string -> string -> W -> W * option OS.os_error.
Variable shutil_rmtree : string -> W -> W * option OS.os_error.

Lemma catchable_cleanup_body :
  catchable (Cleanup.cleanup_body os_path_exists os_listdir glob_glob
               shutil_move shutil_rmtree).
Proof.
  unfold Cleanup.cleanup_body.
  apply catchable_bind; [apply catchable_query|intros present].
  apply catchable_bind.
  { destruct (negb present); [apply catchable_print|apply catchable_ret]. }
  intros _.
  apply catchable_bind; [apply catchable_attempt|intros obs_id_dirs].
  apply catchable_bind.
  { apply catchable_for_each. intros obs_id.
    apply catchable_bind; [apply catchable_query|intros stis_files].
    apply catchable_for_each. intros file. apply catchable_effect. }
  intros _.
  apply catchable_bind; [apply catchable_query|intros present'].
  destruct present'; [apply catchable_effect|apply catchable_ret].
Qed.

End CatchableCells.

(** C3: whatever the file system holds and however the os, glob and
    shutil calls behave on it, the cleanup cell ends normally: every
    error of its body is caught by the except clause, which only prints
    the diagnostic message. *)
Theorem C3_cleanup_never_raises (W : Type)
    (os_path_exists : string -> W -> bool)
    (os_listdir : string -> W -> OS.os_error + list string)
    (glob_glob : string -> W -> list string)
    (shutil_move : string -> string -> W -> W * option OS.os_error)
    (shutil_rmtree : string -> W -> W * option OS.os_error)
    (s : Cell.state W) :
  let body := Cleanup.cleanup_body os_path_exists os_listdir glob_glob
                shutil_move shutil_rmtree in
  let cell := Cleanup.cleanup_cell os_path_exists os_listdir glob_glob
                shutil_move shutil_rmtree in
  (exists s', cell s = (Py.Ok tt, s')) /\
  (forall e s1, body s = (Py.Raise e, s1) ->
     cell s = (Py.Ok tt,
               Cell.State (Cell.world s1)
                 (Cell.stdout s1
                  ++ ["An error occurred: " +:+ Py.str_exn e]))).
Proof.
  intros body cell.
  pose proof (catchable_cleanup_body os_path_exists os_listdir glob_glob
                shutil_move shutil_rmtree s) as Hsafe.
  fold body in Hsafe.
  unfold cell, Cleanup.cleanup_cell, Cell.try_except_Exception. fold body.
  destruct (body s) as [[[]|e|] s1]; simpl in Hsafe.
  - split; [now exists s1|]. intros e' s2 H. discriminate.
  - rewrite Hsafe. split; [eexists; reflexivity|].
    intros e' s2 [= <- <-]. reflexivity.
  - contradiction.
Qed.

(** The except clause is not a catch-all: an exception outside the
    Exception hierarchy passes through it. *)
Example try_except_lets_interrupt_through :
  Cell.try_except_Exception (W := unit)
    (fun s => (Py.Raise Py.KeyboardInterrupt, s))
    (fun e => Cell.print ("An error occurred: " +:+ Py.str_exn e))
    (Cell.State tt [])
  = (Py.Raise Py.KeyboardInterrupt, Cell.State tt []).
Proof. reflexivity. Qed.

(** On a tree where the download directory is absent the cell prints
    both messages and ends normally. *)
Example cleanup_without_download :
  Cleanup.cleanup_cell (W := unit)
    (fun _ _ => false) (fun _ _ => inl OS.ENOENT) (fun _ _ => [])
    (fun _ _ w => (w, None)) (fun _ w => (w, None))
    (Cell.State tt [])
  = (Py.Ok tt,
     Cell.State tt
       ["Directory stis_data/mastDownload/HST/ doesn't exist.";
        "An error occurred: stis_data/mastDownload/HST/"]).
Proof. reflexivity. Qed.

(** C4 on a shift file whose third line holds nan. *)
Lemma C4_witness :
  ((exists msg, SkyMatching.shift_check_cell ShiftExample.failed
                = Py.Raise (Py.ValueError msg))
   <-> List.Exists (Spec.has_substring "nan")
         ["# frame: output" +:+ String "010" "";
          "ibxl50030_drz.fits  0.10  0.20  0.001  1.00001  0.05  0.04"
            +:+ String "010" "";
          "ibxl53030_drz.fits  nan  nan  nan  nan  nan  nan"
            +:+ String "010" ""]) /\
  (forall e, SkyMatching.shift_check_cell ShiftExample.failed = Py.Raise e ->
     exists n,
       Spec.first_nan_line
         ["# frame: output" +:+ String "010" "";
          "ibxl50030_drz.fits  0.10  0.20  0.001  1.00001  0.05  0.04"
            +:+ String "010" "";
          "ibxl53030_drz.fits  nan  nan  nan  nan  nan  nan"
            +:+ String "010" ""] n /\
       e = Py.ValueError
             ("nan found in line " +:+ Str.of_nat n +:+ " in shift file")) /\
  (List.Forall (fun l => ~ Spec.has_substring "nan" l)
     ["# frame: output" +:+ String "010" "";
      "ibxl50030_drz.fits  0.10  0.20  0.001  1.00001  0.05  0.04"
        +:+ String "010" "";
      "ibxl53030_drz.fits  nan  nan  nan  nan  nan  nan"
        +:+ String "010" ""] ->
   SkyMatching.shift_check_cell ShiftExample.failed = Py.Ok tt).
Proof.
  apply (C4_shift_check ShiftExample.failed). vm_compute. reflexivity.
Defined.

Example shift_check_failed :
  SkyMatching.shift_check_cell ShiftExample.failed
  = Py.Raise (Py.ValueError "nan found in line 3 in shift file").
Proof. reflexivity. Qed.

(** ** The co-add product name *)

(** C7: the co-add file name the notebook opens is the convention
    hst_<programID>_<instrument>_<target>_<grating>_<obset>_cspec.fits
    instantiated with 8435, stis, g191b2b, e140m and o5jy: split at the
    underscores it is hst, those five fields, and the suffix
    cspec.fits. *)
Theorem C7_coadd_name :
  FluxScaling.coadd = "hst_8435_stis_g191b2b_e140m_o5jy_cspec.fits" /\
  FluxScaling.coadd = cspec_name "8435" "stis" "g191b2b" "e140m" "o5jy" /\
  Str.split "_" FluxScaling.coadd
  = ["hst"; "8435"; "stis"; "g191b2b"; "e140m"; "o5jy"; "cspec.fits"].
Proof. repeat split. Qed.

(** ** The guarded extraction *)

(** C9: a member named ../<extraction directory>_evil/x passes the
    prefix test and is extracted, although its destination lies outside
    the extraction directory. *)
Theorem C9_prefix_guard_lets_sibling_escape :
  let cwd := "/home/user" in
  let name :=
    "../hlsp_reference-atlases_hst_multi_everything_multi_v11_sed_evil/x" in
  let dest :=
    "/home/user/hlsp_reference-atlases_hst_multi_everything_multi_v11_sed_evil/x"
  in
  Synphot.extract_cell cwd [name] = [Synphot.Extract name dest] /\
  PosixPath.inside (PosixPath.abspath cwd Synphot.extract_to) dest = false.
Proof. split; reflexivity. Qed.

Example extract_cell_skips_parent :
  Synphot.extract_cell "/home/user" ["../../etc/passwd"; "grp/redcat/x.fits"]
  = [Synphot.Skipped
       "Skipped ../../etc/passwd due to potential security risk";
     Synphot.Extract "grp/redcat/x.fits"
       "/home/user/hlsp_reference-atlases_hst_multi_everything_multi_v11_sed/grp/redcat/x.fits"].
Proof. reflexivity. Qed.

(** ** Shell lines *)

Lemma append_cons (c : ascii) (s t : string) :
  String c s +:+ t = String c (s +:+ t).
Proof. reflexivity. Qed.


Lemma append_assoc (a b c : string) : (a +:+ b) +:+ c = a +:+ (b +:+ c).
Proof.
  induction a as [|x a IH]; [reflexivity|].
  now rewrite !append_cons, IH.
Qed.







Example bestrefs_two_words :
  Notebook.words
    (Notebook.render (fun _ => "a b_raw.fits")
       [Notebook.Lit "crds bestrefs --files "; Notebook.Var "file";
        Notebook.Lit " --sync-references=1 --update-bestrefs"])
  = ["crds"; "bestrefs"; "--files"; "a"; "b_raw.fits";
     "--sync-references=1"; "--update-bestrefs"].
Proof. reflexivity. Qed.



(** ** Files written *)

(** C2 as stated fails: gaia_no_pm.cat is written in an ASCII format. *)
Lemma C2_counterexample :
  ~ (forall w, In w Notebook.all_written ->
       snd w = Notebook.FITS \/ snd w = Notebook.GIF
       \/ snd w = Notebook.PNG).
Proof.
  intros H.
  destruct (H ("gaia_no_pm.cat", Notebook.ASCII)) as [E|[E|E]];
    try discriminate E.
  unfold Notebook.all_written. apply in_flat_map.
  exists (Notebook.WriteFile "gaia_no_pm.cat" Notebook.ASCII).
  split; [|now left].
  vm_compute. tauto.
Qed.

(** C2, amended: every file the notebooks write under a name given in
    the code, or has an external tool write and then reads back, is a
    FITS file, a PNG, an ASCII text file or a tar archive; the ASCII
    files are gaia_no_pm.cat, gaia_pm.cat, shift_drz.txt and the
    *_drz_catalog_fit.match catalogs, the tar archive is the reference
    atlas fetched by curl, and no GIF is written. *)
Theorem C2_written_formats :
  List.Forall
    (fun w => Notebook.format_in
                [Notebook.FITS; Notebook.PNG; Notebook.ASCII; Notebook.TAR] w
              = true)
    Notebook.all_written /\
  map fst (List.filter (Notebook.format_in [Notebook.ASCII])
             Notebook.all_written)
  = ["gaia_no_pm.cat"; "gaia_pm.cat"; "shift_drz.txt";
     "*_drz_catalog_fit.match"] /\
  map fst (List.filter (Notebook.format_in [Notebook.TAR])
             Notebook.all_written)
  = ["hlsp_reference-atlases_hst_multi_everything_multi_v11_sed.tar";
     "hlsp_reference-atlases_hst_multi_everything_multi_v11_sed.tar"] /\
  List.filter (Notebook.format_in [Notebook.GIF]) Notebook.all_written = [].
Proof.
  split; [|repeat split].
  apply List.Forall_forall. intros w Hw.
  vm_compute in Hw.
  repeat (destruct Hw as [<-|Hw]; [reflexivity|]). destruct Hw.
Qed.

(** ** Keyword accesses *)



(** ** Phases *)

(** C8 as stated fails: the flux-scaling notebook runs the co-add tool
    again after it has loaded and plotted the first results. *)
Lemma C8_counterexample :
  ~ (forall nb, In nb Notebook.repository ->
       Notebook.phase_ordered (Notebook.phases nb) = true).
Proof.
  intros H. specialize (H Notebook.flux_scaling (or_introl eq_refl)).
  vm_compute in H. discriminate H.
Qed.

(** C8, amended: in the flux-scaling notebook the phases occur in the
    order download, tool, load and plot, tool, load and plot: all
    download steps come before the first run of the tool, each run of
    the tool is followed by loading and plotting, and the second run of
    the tool comes after the first loading and plotting. *)
Theorem C8_flux_scaling_phases :
  Notebook.runs (Notebook.phases Notebook.flux_scaling)
  = [Notebook.PDownload; Notebook.PTool; Notebook.PLoadPlot;
     Notebook.PTool; Notebook.PLoadPlot] /\
  (exists before after,
     Notebook.phases Notebook.flux_scaling
     = before ++ Notebook.PLoadPlot :: Notebook.PTool :: after).
Proof.
  split; [reflexivity|].
  exists ([Notebook.PDownload; Notebook.PDownload; Notebook.PDownload;
           Notebook.PTool] ++ repeat Notebook.PLoadPlot 26),
         (repeat Notebook.PLoadPlot 7).
  reflexivity.
Qed.

(** * Further properties of the embedded cells *)

(** ** The SNR ratio on arrays of any shape *)

Lemma take_ok_iff (b : list Q) (idx : list nat) :
  (exists r, Np.take b idx = Py.Ok r)
  <-> List.Forall (fun i => (i < length b)%nat) idx.
Proof.
  induction idx as [|i idx IH]; simpl.
  - split; [constructor|intros _; now exists []].
  - destruct (nth_error b i) as [x|] eqn:E.
    + assert (Hi : (i < length b)%nat)
        by (apply nth_error_Some; congruence).
      split.
      * intros [r Hr]. constructor; [exact Hi|]. apply IH.
        destruct (Np.take b idx) as [r'| |]; try discriminate.
        now exists r'.
      * intros H. inversion H as [|? ? _ Hrest]; subst.
        apply IH in Hrest as [r Hr]. rewrite Hr. simpl. now eexists.
    + split; [intros [r Hr]; discriminate|].
      intros H. inversion H as [|? ? Hi _]; subst.
      apply nth_error_None in E. lia.
Qed.

Lemma take_cases (b : list Q) (idx : list nat) :
  (exists r, Np.take b idx = Py.Ok r /\ length r = length idx) \/
  Np.take b idx = Py.Raise (Py.IndexError "index out of bounds").
Proof.
  induction idx as [|i idx IH]; simpl.
  - left. now exists [].
  - destruct (nth_error b i); [|now right].
    destruct IH as [(r & -> & Hl)| ->]; simpl; [|now right].
    left. eexists; split; [reflexivity|]. simpl. now rewrite Hl.
Qed.

Lemma length_nonzero_from (i : nat) (a : list Q) :
  length (Np.nonzero_from i a) = length (List.filter Np.is_nonzero a).
Proof.
  revert i. induction a as [|x a IH]; intros i; simpl; [reflexivity|].
  unfold Np.is_nonzero. destruct (Qeq_bool x 0); simpl; now rewrite IH.
Qed.

Lemma in_nonzero_from (k i : nat) (a : list Q) :
  In k (Np.nonzero_from i a)
  <-> exists x, (i <= k)%nat /\ nth_error a (k - i) = Some x
                /\ ~ (x == 0)%Q.
Proof.
  revert i. induction a as [|y a IH]; intros i; simpl.
  - split; [intros []|]. intros (x & _ & H & _).
    destruct (k - i)%nat; discriminate.
  - destruct (Qeq_bool y 0) eqn:E.
    + rewrite IH. apply Qeq_bool_iff in E. split.
      * intros (x & Hle & Hn & Hx). exists x. split; [lia|]. split; [|exact Hx].
        replace (k - i)%nat with (S (k - S i)) by lia. exact Hn.
      * intros (x & Hle & Hn & Hx).
        destruct (k - i)%nat as [|m] eqn:Hm; simpl in Hn.
        -- injection Hn as <-. contradiction.
        -- exists x. split; [lia|]. split; [|exact Hx].
           replace (k - S i)%nat with m by lia. exact Hn.
    + assert (Hy : ~ (y == 0)%Q).
      { intros H. apply Qeq_bool_iff in H. congruence. }
      simpl. rewrite IH. split.
      * intros [<-|(x & Hle & Hn & Hx)].
        -- exists y. split; [lia|]. rewrite Nat.sub_diag. now split.
        -- exists x. split; [lia|]. split; [|exact Hx].
           replace (k - i)%nat with (S (k - S i)) by lia. exact Hn.
      * intros (x & Hle & Hn & Hx).
        destruct (k - i)%nat as [|m] eqn:Hm; simpl in Hn.
        -- left. lia.
        -- right. exists x. split; [lia|]. split; [|exact Hx].
           replace (k - S i)%nat with m by lia. exact Hn.
Qed.

(** X1: whatever the three arrays hold and however long they are, the
    SNR cell never divides by zero: it either returns or stops with the
    IndexError of an index array that reaches past an array's end. *)
Theorem snr_ratio_cell_never_divides_by_zero
    (SNR SNR_scaled w_scaled : Np.ndarray) :
  FluxScaling.snr_ratio_cell SNR SNR_scaled w_scaled <> Py.NonFinite /\
  (forall e, FluxScaling.snr_ratio_cell SNR SNR_scaled w_scaled = Py.Raise e ->
     e = Py.IndexError "index out of bounds").
Proof.
  unfold FluxScaling.snr_ratio_cell, Np.nonzero.
  pose proof (take_nonzero_self [] SNR) as Hself. simpl in Hself.
  rewrite Hself.
  destruct (take_cases SNR_scaled (Np.nonzero_from 0 SNR))
    as [(sn & -> & Hl)| ->]; simpl.
  2: { split; [discriminate|]. now intros e [= <-]. }
  rewrite length_nonzero_from in Hl.
  destruct (divide_arrays_nonzero _ (filter_is_nonzero SNR) sn Hl)
    as (r & -> & _). simpl.
  destruct (take_cases w_scaled (Np.nonzero_from 0 SNR))
    as [(wn & -> & _)| ->]; simpl.
  - split; [discriminate|]. intros e H. discriminate H.
  - split; [discriminate|]. now intros e [= <-].
Qed.

(** X2: the SNR cell returns exactly when every non-zero entry of the
    original SNR sits at an index that exists in both arrays of the
    second co-add; trailing zeros of SNR may reach past their end. *)
Theorem snr_ratio_cell_returns_iff (SNR SNR_scaled w_scaled : Np.ndarray) :
  (exists r, FluxScaling.snr_ratio_cell SNR SNR_scaled w_scaled = Py.Ok r)
  <-> (forall i x, nth_error SNR i = Some x -> ~ (x == 0)%Q ->
         (i < length SNR_scaled)%nat /\ (i < length w_scaled)%nat).
Proof.
  assert (Hidx : forall b : list Q,
             List.Forall (fun i => (i < length b)%nat) (Np.nonzero_from 0 SNR)
             <-> (forall i x, nth_error SNR i = Some x -> ~ (x == 0)%Q ->
                    (i < length b)%nat)).
  { intros b. rewrite List.Forall_forall. split.
    - intros H i x Hn Hx. apply H. apply in_nonzero_from.
      exists x. split; [lia|]. now rewrite Nat.sub_0_r.
    - intros H i Hi. apply in_nonzero_from in Hi as (x & _ & Hn & Hx).
      rewrite Nat.sub_0_r in Hn. now apply (H i x). }
  unfold FluxScaling.snr_ratio_cell, Np.nonzero.
  pose proof (take_nonzero_self [] SNR) as Hself. simpl in Hself.
  rewrite Hself. split.
  - intros [r Hr] i x Hn Hx.
    destruct (Np.take SNR_scaled (Np.nonzero_from 0 SNR)) as [sn| |] eqn:E1;
      try discriminate.
    simpl in Hr.
    destruct (Np.divide_arrays sn (List.filter Np.is_nonzero SNR));
      try discriminate.
    simpl in Hr.
    destruct (Np.take w_scaled (Np.nonzero_from 0 SNR)) as [wn| |] eqn:E2;
      try discriminate.
    split.
    + apply (proj1 (Hidx SNR_scaled)) with (x := x); try assumption.
      apply take_ok_iff. now exists sn.
    + apply (proj1 (Hidx w_scaled)) with (x := x); try assumption.
      apply take_ok_iff. now exists wn.
  - intros H.
    assert (H1 : exists sn, Np.take SNR_scaled (Np.nonzero_from 0 SNR)
                            = Py.Ok sn).
    { apply take_ok_iff, Hidx. intros i x Hn Hx. now apply (H i x). }
    assert (H2 : exists wn, Np.take w_scaled (Np.nonzero_from 0 SNR)
                            = Py.Ok wn).
    { apply take_ok_iff, Hidx. intros i x Hn Hx. now apply (H i x). }
    destruct H1 as [sn H1], H2 as [wn H2].
    destruct (take_cases SNR_scaled (Np.nonzero_from 0 SNR))
      as [(sn' & E & Hl)|E]; rewrite E in H1; [|discriminate].
    injection H1 as ->. rewrite E. simpl.
    rewrite length_nonzero_from in Hl.
    destruct (divide_arrays_nonzero _ (filter_is_nonzero SNR) sn Hl)
      as (r & -> & _). simpl. rewrite H2. simpl. now eexists.
Qed.

(** With a non-zero SNR entry past the end of the scaled SNR the cell
    stops with IndexError; with only zeros there it returns. *)
Example snr_ratio_short_scaled :
  FluxScaling.snr_ratio_cell [4; 0; 2]%Q [6; 9]%Q [1450; 1460; 1470]%Q
  = Py.Raise (Py.IndexError "index out of bounds") /\
  FluxScaling.snr_ratio_cell [4; 2; 0]%Q [6; 9]%Q [1450; 1460]%Q
  = Py.Ok ([6; 9]%Q, [4; 2]%Q, [6 / 4; 9 / 2]%Q, [1450; 1460]%Q).
Proof. split; reflexivity. Qed.

(** ** The rescaling loop on any list of files *)

Lemma data_path_ne_scaled_path (x y : string) :
  FluxScaling.fpath FluxScaling.stis_data_dir x
  <> FluxScaling.fpath FluxScaling.stis_scaled_data_dir y.
Proof. intros H. cbv in H. discriminate H. Qed.

Lemma fpath_inj (dir x y : string) :
  FluxScaling.fpath dir x = FluxScaling.fpath dir y -> x = y.
Proof.
  unfold FluxScaling.fpath. intros H.
  apply String.app_inj in H. now apply String.app_inj in H.
Qed.

Lemma rescale_loop_frame (fnames : list string) :
  forall (i : nat) (scale_factor : list Q) (fs fs' : Fits.filesystem)
         (p : string),
    FluxScaling.rescale_loop i fnames scale_factor fs = Py.Ok fs' ->
    (forall name, In name fnames ->
       p <> FluxScaling.fpath FluxScaling.stis_scaled_data_dir name) ->
    fs' !! p = fs !! p.
Proof.
  induction fnames as [|filename rest IH]; intros i sf fs fs' p Hrun Hp.
  - simpl in Hrun. now injection Hrun as <-.
  - cbn [FluxScaling.rescale_loop] in Hrun.
    destruct (Fits.open fs _) as [t| |]; try discriminate Hrun.
    cbn [Py.bind] in Hrun.
    destruct (Fits.column t "FLUX") as [flux| |]; try discriminate Hrun.
    cbn [Py.bind] in Hrun.
    destruct (Fits.column t "WAVELENGTH") as [w| |]; try discriminate Hrun.
    cbn [Py.bind] in Hrun.
    destruct (nth_error sf i) as [s|]; try discriminate Hrun.
    apply IH with (p := p) in Hrun.
    + rewrite Hrun. unfold Fits.writeto.
      apply lookup_insert_ne. intros E. apply (Hp filename); [now left|].
      now symmetry.
    + intros name Hin. apply Hp. now right.
Qed.

Lemma rescale_plot_loop_ok (colors : list string) (fnames : list string) :
  forall (i : nat) (scale_factor : list Q) (fs fs' : Fits.filesystem),
    RescalePlot.rescale_loop colors i fnames scale_factor fs = Py.Ok fs' ->
    FluxScaling.rescale_loop i fnames scale_factor fs = Py.Ok fs'.
Proof.
  induction fnames as [|filename rest IH]; intros i sf fs fs' Hrun.
  - exact Hrun.
  - cbn [RescalePlot.rescale_loop FluxScaling.rescale_loop] in *.
    destruct (Fits.open fs _) as [t| |]; try discriminate Hrun.
    cbn [Py.bind] in *.
    destruct (Fits.column t "FLUX") as [flux| |]; try discriminate Hrun.
    cbn [Py.bind] in *.
    destruct (Fits.column t "WAVELENGTH") as [w| |]; try discriminate Hrun.
    cbn [Py.bind] in *.
    destruct (nth_error sf i) as [s|]; try discriminate Hrun.
    destruct (nth_error colors i) as [c|]; try discriminate Hrun.
    destruct (RescalePlot.scatter w flux) as [[]| |]; try discriminate Hrun.
    cbn [Py.bind] in Hrun. now apply IH.
Qed.

Lemma rescale_plot_loop_complete (colors : list string) (fnames : list string) :
  forall (i : nat) (scale_factor : list Q) (fs : Fits.filesystem),
    (forall name, In name fnames -> RescalePlot.plottable fs name) ->
    (i + length fnames <= length scale_factor)%nat ->
    (i + length fnames <= length colors)%nat ->
    RescalePlot.rescale_loop colors i fnames scale_factor fs
    = FluxScaling.rescale_loop i fnames scale_factor fs.
Proof.
  induction fnames as [|filename rest IH]; intros i sf fs Hall Hlen Hcol.
  - reflexivity.
  - destruct (Hall filename (or_introl eq_refl))
      as (t & flux & w & Ht & Hf & Hw & Hsize).
    simpl in Hlen, Hcol.
    cbn [RescalePlot.rescale_loop FluxScaling.rescale_loop].
    unfold Fits.open, Fits.column. rewrite Ht. cbn [Py.bind].
    rewrite Hf, Hw. cbn [Py.bind].
    destruct (nth_error sf i) as [s|] eqn:Hs; [|reflexivity].
    destruct (nth_error colors i) as [c|] eqn:Hc;
      [|apply nth_error_None in Hc; lia].
    unfold RescalePlot.scatter. rewrite Hsize, Nat.eqb_refl. cbn [Py.bind].
    apply IH; [|lia|lia].
    intros name Hin.
    destruct (Hall name (or_intror Hin)) as (t' & f' & w' & H1 & H2 & H3 & H4).
    exists t', f', w'. split; [|now repeat split].
    unfold Fits.writeto. rewrite lookup_insert_ne; [exact H1|].
    intros E. symmetry in E. now apply data_path_ne_scaled_path in E.
Qed.

Lemma plottable_rescalable (fs : Fits.filesystem) (name : string) :
  RescalePlot.plottable fs name -> rescalable fs name.
Proof.
  intros (t & flux & w & H1 & H2 & H3 & _). now exists t, flux, w.
Qed.

Lemma rescale_loop_complete (fnames : list string) :
  forall (i : nat) (scale_factor : list Q) (fs : Fits.filesystem),
    List.NoDup fnames ->
    (forall name, In name fnames -> rescalable fs name) ->
    (i + length fnames <= length scale_factor)%nat ->
    exists fs' : Fits.filesystem,
      FluxScaling.rescale_loop i fnames scale_factor fs = Py.Ok fs' /\
      forall k name, nth_error fnames k = Some name ->
        exists (t : gmap string Np.ndarray) (flux : Np.ndarray) (s : Q),
          fs !! FluxScaling.fpath FluxScaling.stis_data_dir name = Some t /\
          t !! "FLUX" = Some flux /\
          nth_error scale_factor (i + k) = Some s /\
          fs' !! FluxScaling.fpath FluxScaling.stis_scaled_data_dir name
          = Some (<["FLUX" := Np.multiply flux s]> t).
Proof.
  induction fnames as [|filename rest IH]; intros i sf fs Hnd Hall Hlen.
  - exists fs. split; [reflexivity|]. intros [|k] name H; discriminate H.
  - apply List.NoDup_cons_iff in Hnd as [Hnotin Hnd].
    destruct (Hall filename (or_introl eq_refl)) as (t & flux & w & Ht & Hf & Hw).
    simpl in Hlen.
    destruct (nth_error sf i) as [s|] eqn:Hs;
      [|apply nth_error_None in Hs; lia].
    set (fs1 := Fits.writeto fs
                  (FluxScaling.fpath FluxScaling.stis_scaled_data_dir filename)
                  (<["FLUX" := Np.multiply flux s]> t)).
    assert (Hsame : forall name,
               fs1 !! FluxScaling.fpath FluxScaling.stis_data_dir name
               = fs !! FluxScaling.fpath FluxScaling.stis_data_dir name).
    { intros name. unfold fs1, Fits.writeto. apply lookup_insert_ne.
      intros E. symmetry in E. now apply data_path_ne_scaled_path in E. }
    destruct (IH (S i) sf fs1 Hnd) as (fs' & Hrun & Hpost).
    { intros name Hin. destruct (Hall name (or_intror Hin))
        as (t' & f' & w' & H1 & H2 & H3).
      exists t', f', w'. now rewrite Hsame. }
    { lia. }
    exists fs'. split.
    + cbn [FluxScaling.rescale_loop]. unfold Fits.open, Fits.column.
      rewrite Ht. cbn [Py.bind]. rewrite Hf, Hw. cbn [Py.bind].
      rewrite Hs. exact Hrun.
    + intros [|k] name Hk; simpl in Hk.
      * injection Hk as <-. exists t, flux, s.
        rewrite Nat.add_0_r. repeat split; try assumption.
        rewrite (rescale_loop_frame rest (S i) sf fs1 fs' _ Hrun).
        -- unfold fs1, Fits.writeto. apply lookup_insert_eq.
        -- intros name Hin E. apply fpath_inj in E. subst. contradiction.
      * destruct (Hpost k name Hk) as (t' & f' & s' & H1 & H2 & H3 & H4).
        exists t', f', s'. rewrite Hsame in H1.
        replace (i + S k)%nat with (S i + k)%nat by lia.
        repeat split; assumption.
Qed.

(** X3: when the file names are plain names, without a directory part,
    a run of the rescaling loop that completes has left every file of
    the input data directory as it was, and has left every file of the
    scaled data directory as it was but those it wrote. *)
Theorem rescale_loop_leaves_inputs
    (colors : list string) (i : nat) (fnames : list string)
    (scale_factor : list Q) (fs fs' : Fits.filesystem) :
  List.Forall (fun name => Components.normal name = true) fnames ->
  RescalePlot.rescale_loop colors i fnames scale_factor fs = Py.Ok fs' ->
  (forall name, Components.normal name = true ->
     fs' !! FluxScaling.fpath FluxScaling.stis_data_dir name
     = fs !! FluxScaling.fpath FluxScaling.stis_data_dir name) /\
  (forall name, Components.normal name = true -> ~ In name fnames ->
     fs' !! FluxScaling.fpath FluxScaling.stis_scaled_data_dir name
     = fs !! FluxScaling.fpath FluxScaling.stis_scaled_data_dir name).
Proof.
  intros _ Hrun. apply rescale_plot_loop_ok in Hrun. split.
  - intros name _.
    apply (rescale_loop_frame fnames i scale_factor); [exact Hrun|].
    intros name' _. apply data_path_ne_scaled_path.
  - intros name _ Hnot.
    apply (rescale_loop_frame fnames i scale_factor); [exact Hrun|].
    intros name' Hin E. apply fpath_inj in E. subst. contradiction.
Qed.

(** X4: for any list of distinct plain file names that are present with
    FLUX and WAVELENGTH columns of one size, a scale-factor list and a
    colour list long enough, the loop completes and the k-th file is
    written with its FLUX multiplied by the k-th scale factor, every
    other column kept. *)
Theorem rescale_loop_writes_scaled (colors : list string)
    (fnames : list string) (i : nat) (scale_factor : list Q)
    (fs : Fits.filesystem) :
  List.Forall (fun name => Components.normal name = true) fnames ->
  List.NoDup fnames ->
  (forall name, In name fnames -> RescalePlot.plottable fs name) ->
  (i + length fnames <= length scale_factor)%nat ->
  (i + length fnames <= length colors)%nat ->
  exists fs' : Fits.filesystem,
    RescalePlot.rescale_loop colors i fnames scale_factor fs = Py.Ok fs' /\
    forall k name, nth_error fnames k = Some name ->
      exists (t : gmap string Np.ndarray) (flux : Np.ndarray) (s : Q),
        fs !! FluxScaling.fpath FluxScaling.stis_data_dir name = Some t /\
        t !! "FLUX" = Some flux /\
        nth_error scale_factor (i + k) = Some s /\
        fs' !! FluxScaling.fpath FluxScaling.stis_scaled_data_dir name
        = Some (<["FLUX" := Np.multiply flux s]> t).
Proof.
  intros _ Hnd Hall Hlen Hcol.
  rewrite (rescale_plot_loop_complete colors fnames i scale_factor fs
             Hall Hlen Hcol).
  apply rescale_loop_complete; [exact Hnd| |exact Hlen].
  intros name Hin. apply plottable_rescalable. now apply Hall.
Qed.



Lemma example_files_plottable (name : string) :
  In name FluxScaling.files -> RescalePlot.plottable Example.stis_data name.
Proof.
  intros [<-|[<-|[<-|[]]]].
  - exists (Example.x1d Example.wave Example.flux_010),
      Example.flux_010, Example.wave. now vm_compute.
  - exists (Example.x1d Example.wave Example.flux_020),
      Example.flux_020, Example.wave. now vm_compute.
  - exists (Example.x1d Example.wave Example.flux_030),
      Example.flux_030, Example.wave. now vm_compute.
Defined.

Lemma example_files_normal :
  List.Forall (fun name => Components.normal name = true) FluxScaling.files.
Proof. repeat constructor. Defined.

Lemma example_files_nodup : List.NoDup FluxScaling.files.
Proof.
  repeat constructor; simpl; intuition discriminate.
Defined.

(** X3 on the three example spectra. *)
Lemma rescale_loop_leaves_inputs_witness :
  (forall name, Components.normal name = true ->
     RescaleExample.scaled
       !! FluxScaling.fpath FluxScaling.stis_data_dir name
     = Example.stis_data !! FluxScaling.fpath FluxScaling.stis_data_dir name) /\
  (forall name, Components.normal name = true ->
     ~ In name FluxScaling.files ->
     RescaleExample.scaled
       !! FluxScaling.fpath FluxScaling.stis_scaled_data_dir name
     = Example.stis_data
         !! FluxScaling.fpath FluxScaling.stis_scaled_data_dir name).
Proof.
  apply (rescale_loop_leaves_inputs RescalePlot.colors 0 FluxScaling.files
           [1; 2; 4]%Q Example.stis_data RescaleExample.scaled).
  - exact example_files_normal.
  - vm_compute. reflexivity.
Defined.

(** X4 on the three example spectra. *)
Lemma rescale_loop_writes_scaled_witness :
  exists fs' : Fits.filesystem,
    RescalePlot.rescale_loop RescalePlot.colors 0 FluxScaling.files
      [1; 2; 4]%Q Example.stis_data = Py.Ok fs' /\
    forall k name, nth_error FluxScaling.files k = Some name ->
      exists (t : gmap string Np.ndarray) (flux : Np.ndarray) (s : Q),
        Example.stis_data
          !! FluxScaling.fpath FluxScaling.stis_data_dir name = Some t /\
        t !! "FLUX" = Some flux /\
        nth_error [1; 2; 4]%Q (0 + k) = Some s /\
        fs' !! FluxScaling.fpath FluxScaling.stis_scaled_data_dir name
        = Some (<["FLUX" := Np.multiply flux s]> t).
Proof.
  apply (rescale_loop_writes_scaled RescalePlot.colors FluxScaling.files 0
           [1; 2; 4]%Q Example.stis_data).
  - exact example_files_normal.
  - exact example_files_nodup.
  - exact example_files_plottable.
  - simpl. lia.
  - simpl. lia.
Defined.

(** With a fourth file the loop stops at [colors[3]], after the file is
    written. *)
Example rescale_loop_fourth_file :
  RescalePlot.rescale_loop RescalePlot.colors 3 ["o5jy03010_x1d.fits"]
    [1; 2; 4; 8]%Q Example.stis_data
  = Py.Raise (Py.IndexError "list index out of range").
Proof. reflexivity. Qed.


(** ** The directory cleanup when the listing fails *)



(** ** Separators *)

Lemma contains_sep_cons (c : ascii) (s : string) :
  Str.contains "/" (String c s) = Ascii.eqb c "/" || Str.contains "/" s.
Proof.
  cbn [Str.contains String.prefix].
  destruct (ascii_dec "/" c) as [<-|Hne].
  - now destruct s.
  - destruct (Ascii.eqb_spec c "/"); [congruence|reflexivity].
Qed.

(** ** The guarded extraction: what the prefix test does guarantee *)

Lemma startswith_longer (p dir tail : string) :
  Str.startswith p (dir +:+ tail) = true -> Str.startswith p dir = true.
Proof.
  unfold Str.startswith. rewrite !prefix_spec.
  intros [post ->]. exists (tail +:+ post). apply append_assoc.
Qed.




(** ** Paths made of ordinary components *)

Lemma normal_spec (c : string) :
  Components.normal c = true ->
  String.eqb c "" = false /\ String.eqb c "." = false /\
  String.eqb c ".." = false /\ Str.contains "/" c = false.
Proof.
  unfold Components.normal. intros H.
  repeat (apply andb_true_iff in H as [H ?]).
  repeat split; now apply negb_true_iff.
Qed.

Lemma normal_head (c : string) :
  Components.normal c = true ->
  exists a rest, c = String a rest /\ Ascii.eqb a "/" = false.
Proof.
  intros H. apply normal_spec in H as (H0 & _ & _ & Hs).
  destruct c as [|a rest]; [discriminate H0|].
  rewrite contains_sep_cons in Hs. apply orb_false_iff in Hs as [Ha _].
  now exists a, rest.
Qed.

Lemma join_cons2 (x y : string) (l : list string) :
  Str.join "/" (x :: y :: l) = x +:+ String "/" (Str.join "/" (y :: l)).
Proof. reflexivity. Qed.

Lemma join_head (l : list string) :
  List.Forall (fun c => Components.normal c = true) l -> l <> [] ->
  exists a rest, Str.join "/" l = String a rest /\ Ascii.eqb a "/" = false.
Proof.
  intros Hl Hne. destruct l as [|x l]; [contradiction|].
  inversion Hl as [|? ? Hx _]; subst.
  destruct (normal_head x Hx) as (a & rest & -> & Ha).
  destruct l as [|y l].
  - now exists a, rest.
  - rewrite join_cons2, append_cons. now eexists a, _.
Qed.

Lemma split_nosep (x : string) :
  Str.contains "/" x = false -> Str.split "/" x = [x].
Proof.
  induction x as [|c x IH]; [reflexivity|].
  rewrite contains_sep_cons. intros H.
  apply orb_false_iff in H as [Hc Hx].
  cbn [Str.split]. rewrite Hc, (IH Hx). reflexivity.
Qed.

Lemma split_app_sep (x r : string) :
  Str.contains "/" x = false ->
  Str.split "/" (x +:+ String "/" r) = x :: Str.split "/" r.
Proof.
  induction x as [|c x IH]; [reflexivity|].
  rewrite contains_sep_cons. intros H.
  apply orb_false_iff in H as [Hc Hx].
  rewrite append_cons. cbn [Str.split]. rewrite Hc, (IH Hx). reflexivity.
Qed.

Lemma split_join (l : list string) :
  List.Forall (fun c => Components.normal c = true) l -> l <> [] ->
  Str.split "/" (Str.join "/" l) = l.
Proof.
  intros Hl. induction Hl as [|x l Hx Hl IH]; intros Hne; [contradiction|].
  apply normal_spec in Hx as (_ & _ & _ & Hs).
  destruct l as [|y l].
  - now apply split_nosep.
  - rewrite join_cons2, split_app_sep by exact Hs.
    now rewrite IH by discriminate.
Qed.

Lemma join_app (l1 l2 : list string) :
  l1 <> [] -> l2 <> [] ->
  Str.join "/" (l1 ++ l2)
  = Str.join "/" l1 +:+ String "/" (Str.join "/" l2).
Proof.
  intros H1 H2. induction l1 as [|x l1 IH]; [contradiction|].
  destruct l1 as [|y l1].
  - destruct l2 as [|z l2]; [contradiction|]. reflexivity.
  - change ((x :: y :: l1) ++ l2) with (x :: y :: (l1 ++ l2)).
    rewrite !join_cons2. change (y :: l1 ++ l2) with ((y :: l1) ++ l2).
    rewrite IH by discriminate. now rewrite append_assoc, append_cons.
Qed.

Lemma fold_norm_step_normal (n : nat) (l acc : list string) :
  List.Forall (fun c => Components.normal c = true) l ->
  fold_left (PosixPath.norm_step n) l acc = acc ++ l.
Proof.
  intros Hl. revert acc. induction Hl as [|c l Hc Hl IH]; intros acc.
  - now rewrite app_nil_r.
  - apply normal_spec in Hc as (H0 & H1 & H2 & _).
    cbn [fold_left]. unfold PosixPath.norm_step at 2.
    rewrite H0, H1, H2. cbn [orb negb]. rewrite IH.
    now rewrite <- app_assoc.
Qed.

Lemma normpath_absolute (l : list string) :
  List.Forall (fun c => Components.normal c = true) l -> l <> [] ->
  PosixPath.normpath (Components.absolute l) = Components.absolute l.
Proof.
  intros Hl Hne.
  destruct (join_head l Hl Hne) as (a & rest & Hj & Ha).
  assert (Hsplit : Str.split "/" (Components.absolute l) = "" :: l).
  { unfold Components.absolute. change ("/" +:+ Str.join "/" l)
      with (String "/" (Str.join "/" l)).
    cbn [Str.split]. change (Ascii.eqb "/" "/") with true. cbv iota.
    now rewrite split_join. }
  unfold PosixPath.normpath. rewrite Hsplit.
  cbn [fold_left]. change (PosixPath.norm_step _ [] "") with (@nil string).
  rewrite fold_norm_step_normal by exact Hl. cbn [app].
  unfold Components.absolute, Str.startswith. rewrite Hj.
  change ("/" +:+ String a rest) with (String "/" (String a rest)).
  cbn [String.eqb String.prefix].
  destruct (ascii_dec "/" "/") as [_|Hc]; [|congruence].
  destruct (ascii_dec "/" a) as [E|_].
  { subst a. discriminate Ha. }
  cbn [andb]. reflexivity.
Qed.

Lemma endswith_sep_app (s t : string) :
  t <> "" -> Str.endswith_sep (s +:+ t) = Str.endswith_sep t.
Proof.
  intros Ht. induction s as [|c s IH]; [reflexivity|].
  rewrite append_cons. cbn [Str.endswith_sep].
  destruct (s +:+ t) as [|c' u] eqn:E.
  - destruct s; [|discriminate E]. now destruct t.
  - exact IH.
Qed.

Lemma endswith_sep_nosep (s : string) :
  Str.contains "/" s = false -> Str.endswith_sep s = false.
Proof.
  induction s as [|c s IH]; [reflexivity|].
  rewrite contains_sep_cons. intros H.
  apply orb_false_iff in H as [Hc Hs].
  cbn [Str.endswith_sep]. destruct s; [exact Hc|now apply IH].
Qed.

Lemma endswith_sep_join (l : list string) :
  List.Forall (fun c => Components.normal c = true) l -> l <> [] ->
  forall p, Str.endswith_sep (p +:+ Str.join "/" l) = false.
Proof.
  intros Hl. induction Hl as [|x l Hx Hl IH]; intros Hne p; [contradiction|].
  destruct l as [|y l].
  - pose proof (normal_spec x Hx) as (H0 & _ & _ & Hs).
    change (Str.join "/" [x]) with x.
    rewrite endswith_sep_app.
    + now apply endswith_sep_nosep.
    + intros ->. discriminate H0.
  - rewrite join_cons2.
    change (String "/" (Str.join "/" (y :: l)))
      with ("/" +:+ Str.join "/" (y :: l)).
    rewrite <- !append_assoc. apply IH. discriminate.
Qed.

Lemma posix_join_relative (a b : string) :
  Str.startswith b "/" = false -> String.eqb a "" = false ->
  Str.endswith_sep a = false ->
  PosixPath.join a b = a +:+ String "/" b.
Proof.
  intros Hb Ha He. unfold PosixPath.join. now rewrite Hb, Ha, He.
Qed.

Lemma startswith_sep_head (a : ascii) (rest : string) :
  Ascii.eqb a "/" = false -> Str.startswith (String a rest) "/" = false.
Proof.
  intros Ha. unfold Str.startswith. cbn [String.prefix].
  destruct (ascii_dec "/" a) as [E|_]; [|reflexivity].
  subst a. discriminate Ha.
Qed.

Lemma absolute_app (l1 l2 : list string) :
  l1 <> [] -> l2 <> [] ->
  Components.absolute (l1 ++ l2)
  = Components.absolute l1 +:+ String "/" (Str.join "/" l2).
Proof.
  intros H1 H2. unfold Components.absolute.
  rewrite join_app by assumption. now rewrite append_assoc.
Qed.

Lemma absolute_not_empty (l : list string) :
  String.eqb (Components.absolute l) "" = false.
Proof. reflexivity. Qed.

Lemma absolute_isabs (l : list string) :
  PosixPath.isabs (Components.absolute l) = true.
Proof.
  unfold PosixPath.isabs, Str.startswith, Components.absolute.
  apply prefix_spec. now eexists.
Qed.

Lemma abspath_relative_normal (C R : list string) :
  List.Forall (fun c => Components.normal c = true) C -> C <> [] ->
  List.Forall (fun c => Components.normal c = true) R -> R <> [] ->
  PosixPath.abspath (Components.absolute C) (Str.join "/" R)
  = Components.absolute (C ++ R).
Proof.
  intros HC HCne HR HRne.
  destruct (join_head R HR HRne) as (a & rest & Hj & Ha).
  assert (Hrel : Str.startswith (Str.join "/" R) "/" = false)
    by (rewrite Hj; now apply startswith_sep_head).
  unfold PosixPath.abspath, PosixPath.isabs. rewrite Hrel.
  rewrite posix_join_relative;
    [|exact Hrel|apply absolute_not_empty
     |apply (endswith_sep_join C HC HCne "/")].
  rewrite <- absolute_app by assumption.
  apply normpath_absolute.
  - apply List.Forall_app. now split.
  - intros E. apply app_eq_nil in E as [E _]. contradiction.
Qed.

(** X9: from a working directory made of ordinary components, a member
    whose name is made of ordinary components (no empty, [.] or [..]
    component) is extracted, to the path of that name below the
    extraction directory, which lies inside the extraction directory. *)
Theorem extract_cell_ordinary_member (C N : list string) :
  List.Forall (fun c => Components.normal c = true) C -> C <> [] ->
  List.Forall (fun c => Components.normal c = true) N -> N <> [] ->
  Synphot.extract_cell (Components.absolute C) [Str.join "/" N]
  = [Synphot.Extract (Str.join "/" N)
       (Components.absolute (C ++ Synphot.extract_to :: N))] /\
  PosixPath.abspath (Components.absolute C) Synphot.extract_to
  = Components.absolute (C ++ [Synphot.extract_to]) /\
  PosixPath.inside (Components.absolute (C ++ [Synphot.extract_to]))
    (Components.absolute (C ++ Synphot.extract_to :: N)) = true.
Proof.
  intros HC HCne HN HNne.
  set (E := Synphot.extract_to).
  assert (HE : List.Forall (fun c => Components.normal c = true) [E])
    by (constructor; [reflexivity|constructor]).
  assert (HCE : List.Forall (fun c => Components.normal c = true) (C ++ [E]))
    by (apply List.Forall_app; now split).
  assert (HCEne : C ++ [E] <> [])
    by (intros H; apply app_eq_nil in H as [_ H]; discriminate H).
  assert (HEN : List.Forall (fun c => Components.normal c = true) (E :: N))
    by (constructor; [reflexivity|exact HN]).
  assert (HA : PosixPath.abspath (Components.absolute C) E
               = Components.absolute (C ++ [E])).
  { change E with (Str.join "/" [E]) at 1.
    apply abspath_relative_normal; try assumption. discriminate. }
  destruct (join_head N HN HNne) as (a & rest & Hj & Ha).
  assert (Hrel : Str.startswith (Str.join "/" N) "/" = false)
    by (rewrite Hj; now apply startswith_sep_head).
  assert (Hsplit : Components.absolute (C ++ E :: N)
                   = Components.absolute (C ++ [E])
                     +:+ String "/" (Str.join "/" N)).
  { rewrite <- absolute_app by assumption. now rewrite <- app_assoc. }
  assert (HM : PosixPath.abspath (Components.absolute C)
                 (PosixPath.join (Components.absolute (C ++ [E]))
                    (Str.join "/" N))
               = Components.absolute (C ++ E :: N)).
  { rewrite posix_join_relative;
      [|exact Hrel|apply absolute_not_empty
       |apply (endswith_sep_join (C ++ [E]) HCE HCEne "/")].
    rewrite <- Hsplit. unfold PosixPath.abspath.
    rewrite absolute_isabs. apply normpath_absolute.
    - apply List.Forall_app. now split.
    - intros H. apply app_eq_nil in H as [_ H]. discriminate H. }
  assert (HD : Synphot.destination (Components.absolute C) (Str.join "/" N)
               = Components.absolute (C ++ E :: N)).
  { unfold Synphot.destination. fold E.
    rewrite posix_join_relative; [|exact Hrel|reflexivity|reflexivity].
    replace (E +:+ String "/" (Str.join "/" N)) with (Str.join "/" (E :: N))
      by (destruct N; [contradiction|reflexivity]).
    apply abspath_relative_normal; try assumption. discriminate. }
  assert (HG : Str.startswith (Components.absolute (C ++ E :: N))
                 (Components.absolute (C ++ [E]) +:+ "/") = true).
  { unfold Str.startswith. apply prefix_spec.
    exists (Str.join "/" N). rewrite Hsplit.
    now rewrite append_assoc. }
  split; [|split].
  - unfold Synphot.extract_cell, Synphot.guard. fold E.
    cbn [map]. rewrite HA, HM, HD.
    now rewrite (startswith_longer _ _ _ HG).
  - exact HA.
  - unfold PosixPath.inside. rewrite HG. apply orb_true_r.
Qed.

(** X9 for a reference spectrum of the atlas, extracted from
    /home/user. *)
Lemma extract_cell_ordinary_member_witness :
  Synphot.extract_cell (Components.absolute ["home"; "user"])
    [Str.join "/" ["grp"; "redcat"; "trds"; "calspec"; "alpha_lyr.fits"]]
  = [Synphot.Extract
       (Str.join "/" ["grp"; "redcat"; "trds"; "calspec"; "alpha_lyr.fits"])
       (Components.absolute
          (["home"; "user"]
           ++ Synphot.extract_to
              :: ["grp"; "redcat"; "trds"; "calspec"; "alpha_lyr.fits"]))] /\
  PosixPath.abspath (Components.absolute ["home"; "user"]) Synphot.extract_to
  = Components.absolute (["home"; "user"] ++ [Synphot.extract_to]) /\
  PosixPath.inside
    (Components.absolute (["home"; "user"] ++ [Synphot.extract_to]))
    (Components.absolute
       (["home"; "user"]
        ++ Synphot.extract_to
           :: ["grp"; "redcat"; "trds"; "calspec"; "alpha_lyr.fits"]))
  = true.
Proof.
  apply (extract_cell_ordinary_member ["home"; "user"]
           ["grp"; "redcat"; "trds"; "calspec"; "alpha_lyr.fits"]).
  - repeat constructor.
  - discriminate.
  - repeat constructor.
  - discriminate.
Defined.

(** ** The table of colour terms *)

Section ColorTableShape.

Context {U : Type}.
Variable effstim : string -> U -> Q.
Variable format_3f : Q -> string.

Lemma length_color_terms (c u : string) (mags : list (ColorTable.mag (U := U))) :
  length (ColorTable.color_terms effstim format_3f c u mags)
  = length (List.filter (fun m : ColorTable.mag => snd m) mags).
Proof.
  unfold ColorTable.color_terms.
  induction mags as [|[[name unit] toggle] mags IH]; [reflexivity|].
  cbn [flat_map List.filter snd]. rewrite length_app, IH.
  now destruct toggle.
Qed.

Lemma length_cols (mags : list (ColorTable.mag (U := U))) :
  length (ColorTable.cols mags)
  = (2 + length (List.filter (fun m : ColorTable.mag => snd m) mags))%nat.
Proof.
  unfold ColorTable.cols. rewrite length_app. cbn [length]. f_equal.
  induction mags as [|[[name unit] toggle] mags IH]; [reflexivity|].
  cbn [flat_map List.filter snd]. rewrite length_app, IH.
  now destruct toggle.
Qed.

Lemma chip_rows_shape (chips : list bool) (c u : string)
    (mags : list (ColorTable.mag (U := U))) (i : nat) :
  List.Forall (fun row => length row = length (ColorTable.cols mags))
    (ColorTable.chip_rows effstim format_3f i chips c u mags) /\
  length (ColorTable.chip_rows effstim format_3f i chips c u mags)
  = length (List.filter (fun toggle : bool => toggle) chips).
Proof.
  revert i. induction chips as [|toggle chips IH]; intros i.
  - split; [constructor|reflexivity].
  - destruct (IH (S i)) as [Hrows Hlen].
    cbn [ColorTable.chip_rows List.filter]. destruct toggle.
    + split.
      * constructor; [|exact Hrows].
        rewrite length_app, length_color_terms, length_cols. reflexivity.
      * cbn [app length]. now rewrite Hlen.
    + split; [exact Hrows|exact Hlen].
Qed.

End ColorTableShape.

(** X12: whatever filter pairs, chip toggles and magnitude toggles are
    set, every row of the colour-term table has as many entries as there
    are column names, and there is one row per filter pair and enabled
    chip. *)
Theorem color_table_is_rectangular (U : Type)
    (effstim : string -> U -> Q) (format_3f : Q -> string)
    (filter_pairs : list (string * string)) (chips : list bool)
    (mags : list (string * U * bool)) :
  List.Forall (fun row => length row = length (ColorTable.cols mags))
    (ColorTable.rows effstim format_3f filter_pairs chips mags) /\
  length (ColorTable.rows effstim format_3f filter_pairs chips mags)
  = (length filter_pairs
     * length (List.filter (fun toggle : bool => toggle) chips))%nat.
Proof.
  unfold ColorTable.rows.
  induction filter_pairs as [|[c u] pairs [IHrows IHlen]].
  - split; [constructor|reflexivity].
  - destruct (chip_rows_shape effstim format_3f chips c u mags 0)
      as [Hrows Hlen].
    cbn [flat_map]. split.
    + apply List.Forall_app. now split.
    + rewrite length_app, Hlen, IHlen. simpl. lia.
Qed.

(** The notebook's own settings with the second chip switched off. *)
Example color_table_example :
  ColorTable.cols
    [("ABMAG", 1%nat, true); ("STMAG", 2%nat, true); ("VEGAMAG", 3%nat, false)]
  = ["Filter Pair"; "Chip"; "ABMAG Color Term"; "STMAG Color Term"] /\
  ColorTable.rows (fun _ _ => 0%Q) (fun _ => "0.000")
    [("johnson, v", "f555w"); ("cousins, i", "f814w")] [true; false]
    [("ABMAG", 1%nat, true); ("STMAG", 2%nat, true); ("VEGAMAG", 3%nat, false)]
  = [["johnson, v - f555w"; "UVIS1"; "0.000"; "0.000"];
     ["cousins, i - f814w"; "UVIS1"; "0.000"; "0.000"]].
Proof. split; reflexivity. Qed.

(** ** The PCTECORR switch *)




(** ** The shift-file check on the content of the file *)

Lemma readlines_nil (s : string) : TextIO.readlines s = [] -> s = "".
Proof.
  destruct s as [|c s]; [reflexivity|]. cbn [TextIO.readlines].
  destruct (Ascii.eqb c "010"); [discriminate|].
  destruct (TextIO.readlines s); discriminate.
Qed.

Lemma first_line_prefix (s : string) :
  forall l ls, TextIO.readlines s = l :: ls -> exists rest, s = l +:+ rest.
Proof.
  induction s as [|c s IH]; intros l ls H; [discriminate H|].
  cbn [TextIO.readlines] in H. destruct (Ascii.eqb c "010").
  - injection H as <- _. now exists s.
  - destruct (TextIO.readlines s) as [|l' ls'] eqn:E.
    + injection H as <- _. apply readlines_nil in E. subst. now exists "".
    + injection H as <- _. destruct (IH l' ls' eq_refl) as [rest ->].
      now exists rest.
Qed.

Lemma contains_cons_mono (sub : string) (c : ascii) (s : string) :
  Str.contains sub s = true -> Str.contains sub (String c s) = true.
Proof.
  intros H. cbn [Str.contains]. rewrite H.
  now destruct (String.prefix sub (String c s)).
Qed.

Lemma prefix_nan_short (c : ascii) : String.prefix "nan" (String c "") = false.
Proof. cbn [String.prefix]. now destruct (ascii_dec "n" c). Qed.

Lemma contains_nan_readlines (s : string) :
  Str.contains "nan" s = existsb (Str.contains "nan") (TextIO.readlines s).
Proof.
  induction s as [|c s IH]; [reflexivity|].
  cbn [TextIO.readlines]. destruct (Ascii.eqb c "010") eqn:Ec.
  - apply Ascii.eqb_eq in Ec. subst c.
    cbn [existsb]. rewrite <- IH. reflexivity.
  - cbn [Str.contains].
    destruct (String.prefix "nan" (String c s)) eqn:Ep.
    + apply prefix_spec in Ep as [post Ep].
      injection Ep as -> ->.
      cbn [TextIO.readlines Ascii.eqb Bool.eqb String.append].
      change ("an" +:+ post) with (String "a" (String "n" post)).
      cbn [TextIO.readlines Ascii.eqb Bool.eqb].
      destruct (TextIO.readlines post) as [|l0 ls0];
        [reflexivity|destruct l0; reflexivity].
    + destruct (TextIO.readlines s) as [|l ls] eqn:E.
      * apply readlines_nil in E. subst s.
        cbn [existsb Str.contains]. rewrite prefix_nan_short. reflexivity.
      * rewrite IH. cbn [existsb Str.contains].
        destruct (String.prefix "nan" (String c l)) eqn:Ep'; [|reflexivity].
        exfalso. apply prefix_spec in Ep' as [post Ep'].
        destruct (first_line_prefix s l ls E) as [rest ->].
        assert (Hp : String.prefix "nan" (String c (l +:+ rest)) = true).
        { apply prefix_spec. exists (post +:+ rest).
          rewrite <- append_cons, Ep'. apply append_assoc. }
        congruence.
Qed.

Lemma existsb_contains_nan (lines : list string) :
  existsb (Str.contains "nan") lines = true
  <-> List.Exists (Spec.has_substring "nan") lines.
Proof.
  rewrite existsb_exists, List.Exists_exists.
  split; intros (l & Hin & Hl); exists l; split; try assumption;
    now apply contains_spec.
Qed.

(** X14: read from the file itself, the shift-file check raises its
    ValueError exactly when the text of the file contains "nan"
    anywhere, be it in a fit value or in a file name, and completes
    exactly when it does not. *)
Theorem shift_check_file_iff (fs : gmap string string) (content : string) :
  fs !! "shift_drz.txt" = Some content ->
  ((exists msg, TextIO.shift_check_file fs = Py.Raise (Py.ValueError msg))
   <-> Spec.has_substring "nan" content) /\
  (TextIO.shift_check_file fs = Py.Ok tt
   <-> ~ Spec.has_substring "nan" content).
Proof.
  intros Hfs. unfold TextIO.shift_check_file. rewrite Hfs.
  rewrite <- !contains_spec, contains_nan_readlines.
  destruct (lines_clean_or_first (TextIO.readlines content))
    as [Hclean|(pre & line & post & E & Hline & Hpre)].
  - rewrite (check_lines_clean 1 _ Hclean).
    assert (Hno : existsb (Str.contains "nan") (TextIO.readlines content)
                  = false).
    { destruct (existsb _ _) eqn:Ex; [|reflexivity].
      apply existsb_contains_nan, List.Exists_exists in Ex
        as (l & Hin & Hl).
      rewrite List.Forall_forall in Hclean. now apply Hclean in Hin. }
    rewrite Hno. split.
    + split; [intros [msg H]; discriminate H|discriminate].
    + split; [discriminate|reflexivity].
  - rewrite E, (check_lines_first 1 pre line post Hpre Hline).
    assert (Hyes : existsb (Str.contains "nan") (pre ++ line :: post) = true).
    { apply existsb_contains_nan, List.Exists_exists. exists line.
      split; [|exact Hline]. apply in_or_app. right. now left. }
    rewrite Hyes. split.
    + split; [reflexivity|intros _; now eexists].
    + split; [discriminate|]. intros H. now contradiction H.
Qed.

(** X14 on a shift file whose only "nan" is in the name of an image. *)
Lemma shift_check_file_iff_witness :
  ((exists msg,
      TextIO.shift_check_file
        {["shift_drz.txt" := "nano_drz.fits  0.10  0.20  0.001  1.0  0.05  0.04"]}
      = Py.Raise (Py.ValueError msg))
   <-> Spec.has_substring "nan"
         "nano_drz.fits  0.10  0.20  0.001  1.0  0.05  0.04") /\
  (TextIO.shift_check_file
     {["shift_drz.txt" := "nano_drz.fits  0.10  0.20  0.001  1.0  0.05  0.04"]}
   = Py.Ok tt
   <-> ~ Spec.has_substring "nan"
         "nano_drz.fits  0.10  0.20  0.001  1.0  0.05  0.04").
Proof.
  apply (shift_check_file_iff
           {["shift_drz.txt" := "nano_drz.fits  0.10  0.20  0.001  1.0  0.05  0.04"]}).
  vm_compute. reflexivity.
Defined.

Example shift_check_file_name_with_nan :
  TextIO.shift_check_file
    {["shift_drz.txt" := "nano_drz.fits  0.10  0.20  0.001  1.0  0.05  0.04"]}
  = Py.Raise (Py.ValueError "nan found in line 1 in shift file").
Proof. reflexivity. Qed.

Example readlines_example :
  TextIO.readlines ("a" +:+ String "010" ("" +:+ String "010" "bc"))
  = ["a" +:+ String "010" ""; String "010" ""; "bc"].
Proof. reflexivity. Qed.

(** ** Removal only after the moves *)

Section Triples.

Context {W : Type}.

Lemma triple_ret {A} (P R : W -> Prop) (a : A) :
  triple P (Cell.ret a) P R.
Proof. intros s H. exact H. Qed.

Lemma triple_print (P R : W -> Prop) (line : string) :
  triple P (Cell.print line) P R.
Proof. intros s H. exact H. Qed.

Lemma triple_query {A} (P R : W -> Prop) (f : W -> A) :
  triple P (Cell.query f) P R.
Proof. intros s H. exact H. Qed.

Lemma triple_attempt {A} (P : W -> Prop) (f : W -> OS.os_error + A)
    (path : string) :
  triple P (Cell.attempt f path) P P.
Proof.
  intros s H. unfold Cell.attempt. now destruct (f (Cell.world s)).
Qed.

Lemma triple_bind {A B} (P Q Q' R : W -> Prop) (m : Cell.M W A)
    (k : A -> Cell.M W B) :
  triple P m Q R -> (forall a, triple Q (k a) Q' R) ->
  triple P (Cell.bind m k) Q' R.
Proof.
  intros Hm Hk s H. unfold Cell.bind. specialize (Hm s H).
  destruct (m s) as [[a|e|] s']; simpl in *;
    [now apply Hk|exact Hm|exact Hm].
Qed.

Lemma triple_for_each {A} (P R : W -> Prop) (l : list A)
    (body : A -> Cell.M W unit) :
  (forall x, triple P (body x) P R) ->
  triple P (Cell.for_each l body) P R.
Proof.
  intros Hbody. induction l as [|x l IH]; simpl.
  - apply triple_ret.
  - eapply triple_bind; [apply Hbody|intros _; exact IH].
Qed.

Lemma triple_weaken {A} (P Q Q' R R' : W -> Prop) (m : Cell.M W A) :
  triple P m Q R -> (forall w, Q w -> Q' w) -> (forall w, R w -> R' w) ->
  triple P m Q' R'.
Proof.
  intros Hm HQ HR s H. specialize (Hm s H).
  destruct (fst (m s)); [now apply HQ|now apply HR|now apply HR].
Qed.

Lemma triple_try_except (P Q : W -> Prop) (body : Cell.M W unit)
    (handler : Py.exn -> Cell.M W unit) :
  triple P body Q Q -> (forall e, triple Q (handler e) Q Q) ->
  triple P (Cell.try_except_Exception body handler) Q Q.
Proof.
  intros Hb Hh s H. unfold Cell.try_except_Exception. specialize (Hb s H).
  destruct (body s) as [[a|e|] s']; simpl in *; try exact Hb.
  destruct (Py.is_Exception e); [now apply Hh|exact Hb].
Qed.

End Triples.

Lemma all_moved_no_removed (w : Trace.trace) (path : string) :
  Trace.all_moved w -> ~ In (Trace.Removed path) w.
Proof.
  intros H Hin. unfold Trace.all_moved in H.
  rewrite List.Forall_forall in H.
  destruct (H _ Hin) as (src & dst & E). discriminate E.
Qed.

Lemma all_moved_removed_after (w : Trace.trace) :
  Trace.all_moved w -> Trace.removed_after_moves w.
Proof.
  intros H [path Hin]. now apply all_moved_no_removed in Hin.
Qed.

Lemma triple_traced_move
    (fails : string -> string -> Trace.trace -> option OS.os_error)
    (src dst path : string) :
  triple Trace.all_moved
    (Cell.effect (Trace.traced_move fails src dst) path)
    Trace.all_moved Trace.removed_after_moves.
Proof.
  intros s H. unfold Cell.effect, Trace.traced_move.
  destruct (fails src dst (Cell.world s)) as [e|] eqn:E; simpl.
  - intros [p Hp]. apply in_app_or in Hp as [Hp|[Hp|[]]].
    + now apply all_moved_no_removed in Hp.
    + discriminate Hp.
  - apply List.Forall_app. split; [exact H|].
    constructor; [now eexists _, _|constructor].
Qed.

Lemma triple_traced_rmtree
    (fails : string -> Trace.trace -> option OS.os_error)
    (target path : string) :
  triple Trace.all_moved
    (Cell.effect (Trace.traced_rmtree fails target) path)
    Trace.removed_after_moves Trace.removed_after_moves.
Proof.
  assert (Hlog : forall w, Trace.all_moved w ->
                   Trace.removed_after_moves (w ++ [Trace.Removed target])).
  { intros w Hw _ src dst failed Hin.
    apply in_app_or in Hin as [Hin|[Hin|[]]]; [|discriminate Hin].
    unfold Trace.all_moved in Hw. rewrite List.Forall_forall in Hw.
    destruct (Hw _ Hin) as (src' & dst' & E). now injection E. }
  intros s H. unfold Cell.effect, Trace.traced_rmtree.
  destruct (fails target (Cell.world s)); simpl; now apply Hlog.
Qed.

(** X15: the cleanup cell of the flux-scaling notebook removes the
    download tree only after every move it attempted has succeeded: if a
    move fails, the tree with the files not yet moved is left in place. *)
Theorem cleanup_cell_removes_after_moves
    (os_path_exists : string -> Trace.trace -> bool)
    (os_listdir : string -> Trace.trace -> OS.os_error + list string)
    (glob_glob : string -> Trace.trace -> list string)
    (move_fails : string -> string -> Trace.trace -> option OS.os_error)
    (rmtree_fails : string -> Trace.trace -> option OS.os_error)
    (stdout : list string) :
  Trace.removed_after_moves
    (Cell.world
       (snd (Cleanup.cleanup_cell os_path_exists os_listdir glob_glob
               (Trace.traced_move move_fails)
               (Trace.traced_rmtree rmtree_fails)
               (Cell.State [] stdout)))).
Proof.
  assert (H : triple Trace.all_moved
                (Cleanup.cleanup_cell os_path_exists os_listdir glob_glob
                   (Trace.traced_move move_fails)
                   (Trace.traced_rmtree rmtree_fails))
                Trace.removed_after_moves Trace.removed_after_moves).
  { unfold Cleanup.cleanup_cell, Cleanup.cleanup_body.
    apply triple_try_except; [|intros e; apply triple_print].
    apply (triple_bind Trace.all_moved Trace.all_moved);
      [apply triple_query|intros present].
    apply (triple_bind Trace.all_moved Trace.all_moved).
    { destruct (negb present); [apply triple_print|apply triple_ret]. }
    intros _.
    apply (triple_bind Trace.all_moved Trace.all_moved).
    { apply (triple_weaken Trace.all_moved Trace.all_moved Trace.all_moved
               Trace.all_moved);
        [apply triple_attempt|auto|apply all_moved_removed_after]. }
    intros obs_id_dirs.
    apply (triple_bind Trace.all_moved Trace.all_moved).
    { apply triple_for_each. intros obs_id.
      apply (triple_bind Trace.all_moved Trace.all_moved);
        [apply triple_query|intros stis_files].
      apply triple_for_each. intros file. apply triple_traced_move. }
    intros _.
    apply (triple_bind Trace.all_moved Trace.all_moved);
      [apply triple_query|intros present'].
    destruct present'.
    - apply triple_traced_rmtree.
    - apply (triple_weaken Trace.all_moved Trace.all_moved
               Trace.removed_after_moves Trace.removed_after_moves);
        [apply triple_ret|apply all_moved_removed_after|auto]. }
  specialize (H (Cell.State [] stdout) (List.Forall_nil _)).
  destruct (fst _); exact H.
Qed.

(** Two files, the second move failing: the first move stands, the
    tree is not removed, the error is printed. *)
Example cleanup_cell_failed_move :
  Cleanup.cleanup_cell
    (fun _ _ => true) (fun _ _ => inr ["o5jy03010"])
    (fun _ _ => ["d/a_x1d.fits"; "d/b_x1d.fits"])
    (Trace.traced_move
       (fun src _ _ =>
          if String.eqb src "d/b_x1d.fits" then Some OS.EACCES else None))
    (Trace.traced_rmtree (fun _ _ => None))
    (Cell.State [] [])
  = (Py.Ok tt,
     Cell.State
       [Trace.Moved "d/a_x1d.fits" "stis_data/a_x1d.fits" false;
        Trace.Moved "d/b_x1d.fits" "stis_data/b_x1d.fits" true]
       ["An error occurred: d/b_x1d.fits"]).
Proof. reflexivity. Qed.

(** ** Moving the ACS downloads *)

Lemma rename_loop_trace
    (rename_fails : string -> string -> Trace.trace -> option OS.os_error)
    (local_paths : list string) :
  forall (w : Trace.trace) (out : list string) (o : Py.outcome unit)
         (s' : Cell.state Trace.trace),
    Cell.for_each local_paths
      (fun oldfname =>
         Cell.effect
           (Trace.traced_move rename_fails oldfname
              (AcsDownload.basename oldfname)) oldfname)
      (Cell.State w out) = (o, s') ->
    match o with
    | Py.Ok _ =>
        Cell.world s'
        = w ++ map (fun f => Trace.Moved f (AcsDownload.basename f) false)
                   local_paths
    | Py.Raise _ =>
        exists done, Cell.world s' = w ++ done /\
                     forall path, ~ In (Trace.Removed path) done
    | Py.NonFinite => False
    end.
Proof.
  induction local_paths as [|f rest IH]; intros w out o s' Hrun.
  - injection Hrun as <- <-. simpl. now rewrite app_nil_r.
  - cbn [Cell.for_each] in Hrun. unfold Cell.bind at 1 in Hrun.
    unfold Cell.effect at 1, Trace.traced_move at 1 in Hrun.
    cbn [Cell.world Cell.stdout] in Hrun.
    destruct (rename_fails f (AcsDownload.basename f) w) as [e|] eqn:E.
    + injection Hrun as <- <-. simpl. eexists; split; [reflexivity|].
      intros path [H|[]]. discriminate H.
    + cbn [Trace.failed_flag] in Hrun. apply IH in Hrun.
      destruct o as [[]|e|]; [| |exact Hrun].
      * rewrite Hrun, <- app_assoc. reflexivity.
      * destruct Hrun as (done & -> & Hdone).
        exists (Trace.Moved f (AcsDownload.basename f) false :: done).
        rewrite <- app_assoc. split; [reflexivity|].
        intros path [H|H]; [discriminate H|now apply Hdone in H].
Qed.

(** X16: the cell that moves the ACS downloads removes mastDownload only
    after every downloaded file has been renamed, successfully, to its
    base name in the working directory; when a rename fails the error
    escapes and the tree is not removed. *)
Theorem rename_cell_removes_after_renames
    (rename_fails : string -> string -> Trace.trace -> option OS.os_error)
    (rmtree_fails : string -> Trace.trace -> option OS.os_error)
    (local_paths : list string) (stdout : list string) :
  let r := AcsDownload.rename_cell (Trace.traced_move rename_fails)
             (Trace.traced_rmtree rmtree_fails) local_paths
             (Cell.State [] stdout) in
  ((exists path, In (Trace.Removed path) (Cell.world (snd r))) ->
   Cell.world (snd r)
   = map (fun f => Trace.Moved f (AcsDownload.basename f) false) local_paths
     ++ [Trace.Removed "mastDownload"]) /\
  ((exists src dst, In (Trace.Moved src dst true) (Cell.world (snd r))) ->
   (exists e, fst r = Py.Raise e) /\
   forall path, ~ In (Trace.Removed path) (Cell.world (snd r))).
Proof.
  cbn zeta. unfold AcsDownload.rename_cell, Cell.bind.
  destruct (Cell.for_each local_paths _ _) as [o s'] eqn:Er.
  apply rename_loop_trace in Er. destruct o as [[]|e|]; [| |contradiction].
  - simpl in Er.
    assert (Hw : Cell.world
                   (snd (Cell.effect
                           (Trace.traced_rmtree rmtree_fails "mastDownload")
                           "mastDownload" s'))
                 = map (fun f => Trace.Moved f (AcsDownload.basename f) false)
                       local_paths ++ [Trace.Removed "mastDownload"]).
    { unfold Cell.effect, Trace.traced_rmtree.
      destruct (rmtree_fails "mastDownload" (Cell.world s')); simpl;
        now rewrite Er. }
    split; [intros _; exact Hw|].
    intros (src & dst & Hin). exfalso. rewrite Hw in Hin.
    apply in_app_or in Hin as [Hin|[Hin|[]]]; [|discriminate Hin].
    apply in_map_iff in Hin as (f & Hf & _). discriminate Hf.
  - destruct Er as (done & Hw & Hdone). simpl in Hw. simpl. split.
    + intros [path Hp]. rewrite Hw in Hp. now apply Hdone in Hp.
    + intros _. split; [now exists e|]. rewrite Hw. exact Hdone.
Qed.

(** Three downloads, the second rename failing: the first file is in
    place, the third is not tried, and the tree is kept. *)
Example rename_cell_failed_rename :
  AcsDownload.rename_cell
    (Trace.traced_move
       (fun src _ _ =>
          if String.eqb src "mastDownload/HST/j9l960a9q/j9l960a9q_raw.fits"
          then Some OS.EACCES else None))
    (Trace.traced_rmtree (fun _ _ => None))
    ["mastDownload/HST/j9l960a7q/j9l960a7q_raw.fits";
     "mastDownload/HST/j9l960a9q/j9l960a9q_raw.fits";
     "mastDownload/HST/j9l960010/j9l960010_asn.fits"]
    (Cell.State [] [])
  = (Py.Raise
       (Py.PermissionError "mastDownload/HST/j9l960a9q/j9l960a9q_raw.fits"),
     Cell.State
       [Trace.Moved "mastDownload/HST/j9l960a7q/j9l960a7q_raw.fits"
          "j9l960a7q_raw.fits" false;
        Trace.Moved "mastDownload/HST/j9l960a9q/j9l960a9q_raw.fits"
          "j9l960a9q_raw.fits" true]
       []).
Proof. reflexivity. Qed.
